(** * BrowserReducer: the browser kernel's state transitions

    A shallow embedding of [js/Flux/BrowserReducer.js].  The reducer is a pure
    function from a [BrowserState] snapshot and an action to the next
    snapshot.  Immutable.js records become Rocq records, the task [Map]
    becomes a [gmap] keyed by URL, the history [List] becomes a [list].

    Conventions.
    - A JS value that may be [null] is an [option]; [None] is [null].
    - Task URLs (the keys of [tasks]) are strings.  The empty string is a
      valid key but is falsy, which matters in [validateBrowserState].
    - [console.error] calls only report a diagnostic; they do not take part
      in the returned snapshot and are left out. *)

From stdpp Require Import gmap strings list fin_maps.
From Stdlib Require Import ZArith.

Local Open Scope string_scope.

(** ** Structured documents (manifests, initial props) *)

#[local] Unset Elimination Schemes.
Inductive Json : Type :=
  | JNull
  | JBool (b : bool)
  | JNum (n : Z)
  | JStr (s : string)
  | JArr (items : list Json)
  | JObj (fields : list (string * Json)).
#[local] Set Elimination Schemes.

(** ** Records *)

(** [LoadingError = Record({code: 0, message: null, originalUrl: null,
    manifest: null})]. *)
Module LoadingError.
Record t : Type := mk {
  code : Z;
  message : option string;
  originalUrl : option string;
  manifest : Json;
}.
End LoadingError.

(** The payload of [showLoadingError]: a plain object.  [code], [message]
    and [manifest] may be missing, in which case the record constructor
    falls back on the record's defaults. *)
Module ErrorPayload.
Record t : Type := mk {
  originalUrl : string;
  code : option Z;
  message : option string;
  manifest : Json;
}.
End ErrorPayload.

(** [new LoadingError(action.payload)] *)
Definition new_LoadingError (payload : ErrorPayload.t) : LoadingError.t :=
  {| LoadingError.code := default 0%Z (ErrorPayload.code payload);
     LoadingError.message := ErrorPayload.message payload;
     LoadingError.originalUrl := Some (ErrorPayload.originalUrl payload);
     LoadingError.manifest := ErrorPayload.manifest payload |}.

(** [HistoryItem = Record({url: null, bundleUrl: null, manifestUrl: null,
    manifest: null, time: null})]. *)
Module HistoryItem.
Record t : Type := mk {
  url : option string;
  bundleUrl : option string;
  manifestUrl : option string;
  manifest : Json;
  time : option Z;
}.
End HistoryItem.

(** A plain history item descriptor, as found in [action.meta.historyItem]
    and in the payload lists of the [then] phases. *)
Module RawItem.
Record t : Type := mk {
  url : option string;
  bundleUrl : option string;
  manifestUrl : option string;
  manifest : Json;
  time : option Z;
}.
End RawItem.

(** [new HistoryItem(item)] *)
Definition new_HistoryItem (item : RawItem.t) : HistoryItem.t :=
  {| HistoryItem.url := RawItem.url item;
     HistoryItem.bundleUrl := RawItem.bundleUrl item;
     HistoryItem.manifestUrl := RawItem.manifestUrl item;
     HistoryItem.manifest := RawItem.manifest item;
     HistoryItem.time := RawItem.time item |}.

(** [BrowserTask = Record({bundleUrl: null, manifestUrl: null, manifest: null,
    isLoading: false, loadingError: null, initialProps: null})]. *)
Module BrowserTask.
Record t : Type := mk {
  bundleUrl : option string;
  manifestUrl : option string;
  manifest : Json;
  isLoading : bool;
  loadingError : option LoadingError.t;
  initialProps : Json;
}.

(** [task.set('isLoading', v)] *)
Definition set_isLoading (v : bool) (task : t) : t :=
  mk (bundleUrl task) (manifestUrl task) (manifest task) v
     (loadingError task) (initialProps task).

(** [task.merge({loadingError: v})] *)
Definition set_loadingError (v : option LoadingError.t) (task : t) : t :=
  mk (bundleUrl task) (manifestUrl task) (manifest task) (isLoading task)
     v (initialProps task).

(** [task.merge({initialProps: v})] *)
Definition set_initialProps (v : Json) (task : t) : t :=
  mk (bundleUrl task) (manifestUrl task) (manifest task) (isLoading task)
     (loadingError task) v.
End BrowserTask.

(** [action.meta] of [navigateToUrlAsync]. *)
Module NavMeta.
Record t : Type := mk {
  url : string;
  bundleUrl : option string;
  manifestUrl : option string;
  manifest : Json;
  initialProps : Json;
  historyItem : RawItem.t;
}.
End NavMeta.

(** [BrowserState = Record({isShell: false, shellManifestUrl: null,
    shellInitialUrl: null, isHomeVisible: true, isKernelLoading: false,
    foregroundTaskUrl: null, tasks: Map(), history: List()})]. *)
Record BrowserState : Type := mkBrowserState {
  isShell : bool;
  shellManifestUrl : option string;
  shellInitialUrl : option string;
  isHomeVisible : bool;
  isKernelLoading : bool;
  foregroundTaskUrl : option string;
  tasks : gmap string BrowserTask.t;
  history : list HistoryItem.t;
}.

(** [new BrowserState()] *)
Definition initialState : BrowserState :=
  {| isShell := false;
     shellManifestUrl := None;
     shellInitialUrl := None;
     isHomeVisible := true;
     isKernelLoading := false;
     foregroundTaskUrl := None;
     tasks := ∅;
     history := [] |}.

(** [state.merge({field: v})], one setter per field; a merge of several
    fields is the composition of their setters. *)
Definition set_isShell (v : bool) (s : BrowserState) : BrowserState :=
  mkBrowserState v (shellManifestUrl s) (shellInitialUrl s) (isHomeVisible s)
    (isKernelLoading s) (foregroundTaskUrl s) (tasks s) (history s).

Definition set_shellManifestUrl (v : option string) (s : BrowserState) : BrowserState :=
  mkBrowserState (isShell s) v (shellInitialUrl s) (isHomeVisible s)
    (isKernelLoading s) (foregroundTaskUrl s) (tasks s) (history s).

Definition set_shellInitialUrl (v : option string) (s : BrowserState) : BrowserState :=
  mkBrowserState (isShell s) (shellManifestUrl s) v (isHomeVisible s)
    (isKernelLoading s) (foregroundTaskUrl s) (tasks s) (history s).

Definition set_isHomeVisible (v : bool) (s : BrowserState) : BrowserState :=
  mkBrowserState (isShell s) (shellManifestUrl s) (shellInitialUrl s) v
    (isKernelLoading s) (foregroundTaskUrl s) (tasks s) (history s).

Definition set_isKernelLoading (v : bool) (s : BrowserState) : BrowserState :=
  mkBrowserState (isShell s) (shellManifestUrl s) (shellInitialUrl s)
    (isHomeVisible s) v (foregroundTaskUrl s) (tasks s) (history s).

Definition set_foregroundTaskUrl (v : option string) (s : BrowserState) : BrowserState :=
  mkBrowserState (isShell s) (shellManifestUrl s) (shellInitialUrl s)
    (isHomeVisible s) (isKernelLoading s) v (tasks s) (history s).

Definition set_tasks (v : gmap string BrowserTask.t) (s : BrowserState) : BrowserState :=
  mkBrowserState (isShell s) (shellManifestUrl s) (shellInitialUrl s)
    (isHomeVisible s) (isKernelLoading s) (foregroundTaskUrl s) v (history s).

Definition set_history (v : list HistoryItem.t) (s : BrowserState) : BrowserState :=
  mkBrowserState (isShell s) (shellManifestUrl s) (shellInitialUrl s)
    (isHomeVisible s) (isKernelLoading s) (foregroundTaskUrl s) (tasks s) v.

(** ** Helpers of the reducer *)

(** [createImmutableHistory(history)] *)
Definition createImmutableHistory (items : list RawItem.t) : list HistoryItem.t :=
  map new_HistoryItem items.

(** [createImmutableTask(meta)]: the url and a fresh task that is not
    loading and carries no error. *)
Definition createImmutableTask (meta : NavMeta.t) : string * BrowserTask.t :=
  (NavMeta.url meta,
   {| BrowserTask.bundleUrl := NavMeta.bundleUrl meta;
      BrowserTask.manifestUrl := NavMeta.manifestUrl meta;
      BrowserTask.manifest := NavMeta.manifest meta;
      BrowserTask.initialProps := NavMeta.initialProps meta;
      BrowserTask.isLoading := false;
      BrowserTask.loadingError := None |}).

(** JS truthiness of a string: every string but the empty one. *)
Definition truthy (url : string) : bool := bool_decide (url ≠ "").

(** The predicate of the filter in [validateBrowserState]:
    [(url === foregroundTaskUrl) ||
     (state.isShell && url === state.shellManifestUrl)]. *)
Definition keepTask (state : BrowserState) (fg url : string) : bool :=
  bool_decide (url = fg)
  || (isShell state && bool_decide (Some url = shellManifestUrl state)).

(** [validateBrowserState(state)] *)
Definition validateBrowserState (state : BrowserState) : BrowserState :=
  match foregroundTaskUrl state with
  | Some fg =>
      if truthy fg then
        let newTasks :=
          filter (λ kv : string * BrowserTask.t, keepTask state fg kv.1 = true)
                 (tasks state) in
        set_tasks newTasks state
      else state
  | None => state
  end.

(** Immutable's lazy sequences.  A [Seq] carries its items and a [size]
    that is a number only when it is known without iterating:
    [Map.valueSeq()] knows its size, the result of [Seq.filter] does not,
    since how many items pass is not known before the predicate has run; its
    [size] is [undefined], here [None]. *)
Module Seq.
Record t (A : Type) : Type := mk {
  items : list A;
  size : option nat;
}.
Arguments mk {A} _ _.
Arguments items {A} _.
Arguments size {A} _.

(** [seq.filter(predicate)] *)
Definition filter {A : Type} (predicate : A → bool) (seq : t A) : t A :=
  {| items := List.filter predicate (items seq); size := None |}.
End Seq.

(** [tasks.valueSeq()] *)
Definition valueSeq (ts : gmap string BrowserTask.t) : Seq.t BrowserTask.t :=
  let values := map snd (map_to_list ts) in
  {| Seq.items := values; Seq.size := Some (length values) |}.

(** [size > 0] for a size that may be [undefined]: the comparison of
    [undefined] with a number is false. *)
Definition sizePositive (size : option nat) : bool :=
  match size with
  | Some n => bool_decide (0 < n)%nat
  | None => false
  end.

(** [tasks.valueSeq().filter(task => task.isLoading).size > 0] *)
Definition isAnythingLoading (ts : gmap string BrowserTask.t) : bool :=
  let loadingTasks := Seq.filter BrowserTask.isLoading (valueSeq ts) in
  sizePositive (Seq.size loadingTasks).

(** ** The handlers, in the order of the source *)

(** The item test of the history filter: [item.url !== historyItem.url]. *)
Definition otherUrl (historyItem item : HistoryItem.t) : bool :=
  bool_decide (HistoryItem.url item ≠ HistoryItem.url historyItem).

Definition navigateToUrlAsync_begin (state : BrowserState) (meta : NavMeta.t)
  : BrowserState :=
  let '(url, task) := createImmutableTask meta in
  let historyItem := new_HistoryItem (NavMeta.historyItem meta) in
  let history' :=
    historyItem :: List.filter (otherUrl historyItem) (history state) in
  validateBrowserState
    (set_isHomeVisible false
      (set_foregroundTaskUrl (Some url)
        (set_tasks (<[url := task]> (tasks state))
          (set_history history' state)))).

Definition navigateToUrlAsync_then (state : BrowserState) (payload : list RawItem.t)
  : BrowserState :=
  let newHistory := createImmutableHistory payload in
  set_history newHistory state.

Definition navigateToUrlAsync_catch (state : BrowserState) (payload : Json)
  : BrowserState :=
  set_isKernelLoading false state.

Definition foregroundUrlAsync (state : BrowserState) (url : option string)
  : BrowserState :=
  match url with
  | None => set_isHomeVisible false (set_foregroundTaskUrl url state)
  | Some u =>
      if bool_decide (is_Some (tasks state !! u)) then
        set_isHomeVisible false (set_foregroundTaskUrl url state)
      else state
  end.

Definition foregroundHomeAsync (state : BrowserState) : BrowserState :=
  if isShell state then state else set_isHomeVisible true state.

Definition setKernelLoadingState (state : BrowserState) (isLoading : bool)
  : BrowserState :=
  set_isKernelLoading isLoading state.

Definition setLoadingState (state : BrowserState) (url : string) (isLoading : bool)
  : BrowserState :=
  match tasks state !! url with
  | Some task =>
      let updatedTasks :=
        <[url :=
            BrowserTask.set_isLoading isLoading
              (BrowserTask.set_loadingError
                 (if isLoading then None else BrowserTask.loadingError task)
                 task)]> (tasks state) in
      set_isKernelLoading (isAnythingLoading updatedTasks)
        (set_tasks updatedTasks state)
  | None => state
  end.

Definition setShellPropertiesAsync (state : BrowserState)
    (isShell' : bool) (shellManifestUrl' : option string) : BrowserState :=
  set_isShell isShell'
    (set_isHomeVisible false
      (set_shellManifestUrl shellManifestUrl' state)).

Definition setInitialShellUrl (state : BrowserState) (url : option string)
  : BrowserState :=
  set_shellInitialUrl url state.

Definition loadHistoryAsync_then (state : BrowserState) (payload : list RawItem.t)
  : BrowserState :=
  let newHistory := createImmutableHistory payload in
  set_history newHistory state.

Definition clearHistoryAsync_then (state : BrowserState) : BrowserState :=
  set_history [] state.

Definition showLoadingError (state : BrowserState) (payload : ErrorPayload.t)
  : BrowserState :=
  let originalUrl := ErrorPayload.originalUrl payload in
  let task :=
    match tasks state !! originalUrl with
    | Some task =>
        BrowserTask.set_isLoading false
          (BrowserTask.set_initialProps JNull
            (BrowserTask.set_loadingError (Some (new_LoadingError payload)) task))
    | None =>
        {| BrowserTask.manifestUrl := None;
           BrowserTask.bundleUrl := None;
           BrowserTask.manifest := JNull;
           BrowserTask.isLoading := false;
           BrowserTask.initialProps := JNull;
           BrowserTask.loadingError := Some (new_LoadingError payload) |}
    end in
  let updatedTasks := <[originalUrl := task]> (tasks state) in
  let isAnythingLoading' := isAnythingLoading updatedTasks in
  validateBrowserState
    (set_isHomeVisible false
      (set_foregroundTaskUrl (Some originalUrl)
        (set_isKernelLoading isAnythingLoading'
          (set_tasks updatedTasks state)))).

Definition clearTaskWithError (state : BrowserState) (url : string) : BrowserState :=
  match tasks state !! url with
  | Some _ =>
      set_isHomeVisible true
        (set_foregroundTaskUrl None
          (set_tasks (delete url (tasks state)) state))
  | None => state
  end.

Definition logUncaughtError (state : BrowserState) (url : string) : BrowserState :=
  match tasks state !! url with
  | Some task =>
      set_tasks (<[url := BrowserTask.set_isLoading false task]> (tasks state)) state
  | None => state
  end.

(** ** Actions and dispatch *)

(** One constructor per handler of the table passed to [Flux.createReducer];
    asynchronous actions have one constructor per phase that has a handler. *)
Inductive Action : Type :=
  | NavigateToUrlBegin (meta : NavMeta.t)
  | NavigateToUrlThen (payload : list RawItem.t)
  | NavigateToUrlCatch (payload : Json)
  | ForegroundUrl (url : option string)
  | ForegroundHome
  | SetKernelLoadingState (isLoading : bool)
  | SetLoadingState (url : string) (isLoading : bool)
  | SetShellProperties (isShell : bool) (shellManifestUrl : option string)
  | SetInitialShellUrl (url : option string)
  | LoadHistoryThen (payload : list RawItem.t)
  | ClearHistoryThen
  | ShowLoadingError (payload : ErrorPayload.t)
  | ClearTaskWithError (url : string)
  | LogUncaughtError (url : string).

(** The reducer built by [Flux.createReducer(new BrowserState(), handlers)]:
    it runs the handler registered for the action's type and phase. *)
Definition reducer (state : BrowserState) (action : Action) : BrowserState :=
  match action with
  | NavigateToUrlBegin meta => navigateToUrlAsync_begin state meta
  | NavigateToUrlThen payload => navigateToUrlAsync_then state payload
  | NavigateToUrlCatch payload => navigateToUrlAsync_catch state payload
  | ForegroundUrl url => foregroundUrlAsync state url
  | ForegroundHome => foregroundHomeAsync state
  | SetKernelLoadingState isLoading => setKernelLoadingState state isLoading
  | SetLoadingState url isLoading => setLoadingState state url isLoading
  | SetShellProperties isShell shellManifestUrl =>
      setShellPropertiesAsync state isShell shellManifestUrl
  | SetInitialShellUrl url => setInitialShellUrl state url
  | LoadHistoryThen payload => loadHistoryAsync_then state payload
  | ClearHistoryThen => clearHistoryAsync_then state
  | ShowLoadingError payload => showLoadingError state payload
  | ClearTaskWithError url => clearTaskWithError state url
  | LogUncaughtError url => logUncaughtError state url
  end.

(** Running a sequence of actions, oldest first. *)
Definition run (state : BrowserState) (actions : list Action) : BrowserState :=
  fold_left reducer actions state.

(** The states the kernel can be in: the initial one and whatever the
    reducer makes of a reachable one. *)
Inductive reachable : BrowserState → Prop :=
  | reachable_init : reachable initialState
  | reachable_step state action :
      reachable state → reachable (reducer state action).

(** ** Properties of snapshots *)

(** Some task of the map is loading. *)
Definition someTaskLoading (ts : gmap string BrowserTask.t) : Prop :=
  ∃ url task, ts !! url = Some task ∧ BrowserTask.isLoading task = true.

(** The kernel flag agrees with the tasks of the snapshot. *)
Definition kernelLoadingDerived (s : BrowserState) : Prop :=
  isKernelLoading s = true ↔ someTaskLoading (tasks s).

(** In shell mode with a foreground task, the tasks are the foreground task
    and the shell manifest task at most. *)
Definition shellTasksRestricted (s : BrowserState) : Prop :=
  isShell s = true → foregroundTaskUrl s ≠ None →
  ∀ url, is_Some (tasks s !! url) →
    Some url = foregroundTaskUrl s ∨ Some url = shellManifestUrl s.

(** What the normalization pass leaves behind: every task is the foreground
    task, or the shell manifest task when in shell mode. *)
Definition tasksNormalized (s : BrowserState) : Prop :=
  ∀ url, is_Some (tasks s !! url) →
    Some url = foregroundTaskUrl s
    ∨ (isShell s = true ∧ Some url = shellManifestUrl s).

(** No two history items share a url. *)
Definition uniqueUrls (h : list HistoryItem.t) : Prop :=
  NoDup (map HistoryItem.url h).

(** The payload list of a bulk replace has no two items with the same url;
    other actions carry no history list. *)
Definition payloadUnique (action : Action) : Prop :=
  match action with
  | NavigateToUrlThen payload | LoadHistoryThen payload =>
      NoDup (map RawItem.url payload)
  | _ => True
  end.

(** Reachability through actions that all satisfy [P]. *)
Inductive reachableWith (P : Action → Prop) : BrowserState → Prop :=
  | reachableWith_init : reachableWith P initialState
  | reachableWith_step state action :
      reachableWith P state → P action →
      reachableWith P (reducer state action).

(** A navigation to [u]: both the task url and the history item's url. *)
Definition navigatesTo (meta : NavMeta.t) (u : string) : Prop :=
  NavMeta.url meta = u ∧ RawItem.url (NavMeta.historyItem meta) = Some u.

(** Sample inputs: a history item and a navigation that carry a url only. *)
Definition plainItem (u : string) : RawItem.t :=
  RawItem.mk (Some u) None None JNull None.

Definition plainMeta (u : string) : NavMeta.t :=
  NavMeta.mk u None None JNull JNull (plainItem u).

(** The snapshots handed to [validateBrowserState] by its two callers, named
    so that the lemmas can speak about the state before normalization. *)

(** The task that [showLoadingError] stores at [originalUrl]. *)
Definition errorTask (state : BrowserState) (payload : ErrorPayload.t)
  : BrowserTask.t :=
  match tasks state !! ErrorPayload.originalUrl payload with
  | Some task =>
      BrowserTask.set_isLoading false
        (BrowserTask.set_initialProps JNull
          (BrowserTask.set_loadingError (Some (new_LoadingError payload)) task))
  | None =>
      {| BrowserTask.manifestUrl := None;
         BrowserTask.bundleUrl := None;
         BrowserTask.manifest := JNull;
         BrowserTask.isLoading := false;
         BrowserTask.initialProps := JNull;
         BrowserTask.loadingError := Some (new_LoadingError payload) |}
  end.

(** The argument of [validateBrowserState] in [showLoadingError]. *)
Definition showLoadingError_merged (state : BrowserState) (payload : ErrorPayload.t)
  : BrowserState :=
  let updatedTasks :=
    <[ErrorPayload.originalUrl payload := errorTask state payload]> (tasks state) in
  set_isHomeVisible false
    (set_foregroundTaskUrl (Some (ErrorPayload.originalUrl payload))
      (set_isKernelLoading (isAnythingLoading updatedTasks)
        (set_tasks updatedTasks state))).

(** The argument of [validateBrowserState] in the begin phase. *)
Definition navigateToUrlAsync_merged (state : BrowserState) (meta : NavMeta.t)
  : BrowserState :=
  let historyItem := new_HistoryItem (NavMeta.historyItem meta) in
  set_isHomeVisible false
    (set_foregroundTaskUrl (Some (NavMeta.url meta))
      (set_tasks (<[NavMeta.url meta := (createImmutableTask meta).2]> (tasks state))
        (set_history
          (historyItem :: List.filter (otherUrl historyItem) (history state))
          state))).

(** The actions that keep [shellTasksRestricted]: all but the foregrounding
    of a non-null url and the setting of the shell properties, which change
    the foreground url, the shell flag or the shell manifest url without
    running the normalization pass, and the two normalized transitions when
    their url is empty, hence falsy. *)
Definition keepsShellRestriction (action : Action) : Prop :=
  match action with
  | ForegroundUrl (Some _) => False
  | SetShellProperties _ _ => False
  | NavigateToUrlBegin meta => NavMeta.url meta ≠ ""
  | ShowLoadingError payload => ErrorPayload.originalUrl payload ≠ ""
  | _ => True
  end.

(** Every action but [clearTaskWithError]. *)
Definition notClearTask (action : Action) : Prop :=
  match action with
  | ClearTaskWithError _ => False
  | _ => True
  end.

(** The foreground url, when set, is the url of a task. *)
Definition foregroundTracked (s : BrowserState) : Prop :=
  ∀ u, foregroundTaskUrl s = Some u → is_Some (tasks s !! u).

(** A property that every task of the snapshot has, given its url. *)
Definition tasksAll (P : string → BrowserTask.t → Prop) (s : BrowserState) : Prop :=
  ∀ u task, tasks s !! u = Some task → P u task.

(** A task that is loading carries no error. *)
Definition loadingHasNoError (u : string) (task : BrowserTask.t) : Prop :=
  BrowserTask.isLoading task = true → BrowserTask.loadingError task = None.

(** The error of a task was reported for the url of that task. *)
Definition errorNamesUrl (u : string) (task : BrowserTask.t) : Prop :=
  ∀ e, BrowserTask.loadingError task = Some e →
       LoadingError.originalUrl e = Some u.

(** The task is not loading. *)
Definition notLoading (u : string) (task : BrowserTask.t) : Prop :=
  BrowserTask.isLoading task = false.

(** The loading updates whose flag satisfies [allowed]; every other action. *)
Definition loadingFlagIn (allowed : bool → Prop) (action : Action) : Prop :=
  match action with
  | SetLoadingState _ isLoading => allowed isLoading
  | _ => True
  end.

(** The actions of a browser that never enters shell mode and whose urls are
    never empty. *)
Definition plainBrowsing (action : Action) : Prop :=
  match action with
  | SetShellProperties _ _ => False
  | NavigateToUrlBegin meta => NavMeta.url meta ≠ ""
  | ShowLoadingError payload => ErrorPayload.originalUrl payload ≠ ""
  | _ => True
  end.

(** The transitions that overwrite [isKernelLoading] with the result of
    their scan of the tasks: [setLoadingState] for a tracked url and
    [showLoadingError]. *)
Definition storesScanResult (state : BrowserState) (action : Action) : Prop :=
  match action with
  | SetLoadingState url _ => is_Some (tasks state !! url)
  | ShowLoadingError _ => True
  | _ => False
  end.

(** * Lemmas *)

(** ** The loading scan *)

(** The filtered sequence holds the loading tasks. *)
Lemma loadingTasks_items (ts : gmap string BrowserTask.t) :
  (0 < length (Seq.items (Seq.filter BrowserTask.isLoading (valueSeq ts))))%nat
  ↔ someTaskLoading ts.
Proof.
  unfold someTaskLoading. simpl. split.
  - intros Hlen.
    destruct (List.filter BrowserTask.isLoading (map snd (map_to_list ts)))
      as [|task rest] eqn:Hf; [simpl in Hlen; lia|].
    assert (Hin : In task (List.filter BrowserTask.isLoading
                             (map snd (map_to_list ts)))).
    { rewrite Hf. now left. }
    apply filter_In in Hin as [Hin Hload].
    apply in_map_iff in Hin as [[url task'] [Heq Hin]]. simpl in Heq. subst task'.
    apply list_elem_of_In, elem_of_map_to_list in Hin.
    eauto.
  - intros (url & task & Hlook & Hload).
    assert (Hin : In task (List.filter BrowserTask.isLoading
                             (map snd (map_to_list ts)))).
    { apply filter_In. split; [|done].
      apply in_map_iff. exists (url, task). split; [done|].
      by apply list_elem_of_In, elem_of_map_to_list. }
    destruct (List.filter _ _); [destruct Hin | simpl; lia].
Qed.

(** Its size is not known, so the test [size > 0] fails whatever the tasks
    are. *)
Lemma isAnythingLoading_false (ts : gmap string BrowserTask.t) :
  isAnythingLoading ts = false.
Proof. reflexivity. Qed.

(** ** The normalization pass *)

Lemma validateBrowserState_fields (s : BrowserState) :
  let s' := validateBrowserState s in
  isShell s' = isShell s ∧ shellManifestUrl s' = shellManifestUrl s
  ∧ shellInitialUrl s' = shellInitialUrl s ∧ isHomeVisible s' = isHomeVisible s
  ∧ isKernelLoading s' = isKernelLoading s
  ∧ foregroundTaskUrl s' = foregroundTaskUrl s ∧ history s' = history s.
Proof.
  unfold validateBrowserState.
  destruct (foregroundTaskUrl s) as [fg|] eqn:Hfg; [|by rewrite Hfg].
  destruct (truthy fg); simpl; by rewrite ?Hfg.
Qed.

Lemma validateBrowserState_lookup (s : BrowserState) (fg url : string) :
  foregroundTaskUrl s = Some fg → fg ≠ "" →
  tasks (validateBrowserState s) !! url
  = if keepTask s fg url then tasks s !! url else None.
Proof.
  intros Hfg Hne. unfold validateBrowserState. rewrite Hfg.
  unfold truthy. rewrite bool_decide_eq_true_2 by done. simpl.
  rewrite map_lookup_filter. simpl.
  destruct (tasks s !! url) as [task|]; simpl.
  - destruct (keepTask s fg url) eqn:Hk.
    + by rewrite option_guard_True.
    + rewrite option_guard_False; [done|]. simpl. congruence.
  - by destruct (keepTask s fg url).
Qed.

Lemma validateBrowserState_falsy (s : BrowserState) :
  foregroundTaskUrl s = None ∨ foregroundTaskUrl s = Some "" →
  validateBrowserState s = s.
Proof.
  unfold validateBrowserState. by intros [-> | ->].
Qed.

Lemma keepTask_true (s : BrowserState) (fg url : string) :
  keepTask s fg url = true
  ↔ url = fg ∨ (isShell s = true ∧ Some url = shellManifestUrl s).
Proof.
  unfold keepTask.
  rewrite orb_true_iff, andb_true_iff, !bool_decide_eq_true. tauto.
Qed.

(** ** Reachability *)

Lemma reachable_run (state : BrowserState) (actions : list Action) :
  reachable state → reachable (run state actions).
Proof.
  revert state. induction actions as [|action actions IH]; intros state Hr.
  - exact Hr.
  - simpl. apply IH. by constructor.
Qed.

(** ** The two guarded transitions *)

Lemma showLoadingError_unfold (state : BrowserState) (payload : ErrorPayload.t) :
  showLoadingError state payload
  = validateBrowserState (showLoadingError_merged state payload).
Proof. reflexivity. Qed.

Lemma navigateToUrlAsync_begin_unfold (state : BrowserState) (meta : NavMeta.t) :
  navigateToUrlAsync_begin state meta
  = validateBrowserState (navigateToUrlAsync_merged state meta).
Proof. reflexivity. Qed.

Lemma errorTask_not_loading (state : BrowserState) (payload : ErrorPayload.t) :
  BrowserTask.isLoading (errorTask state payload) = false.
Proof. unfold errorTask. by destruct (tasks state !! _). Qed.

Lemma showLoadingError_kernel_flag (state : BrowserState) (payload : ErrorPayload.t) :
  isKernelLoading (showLoadingError state payload) = false.
Proof.
  rewrite showLoadingError_unfold.
  by destruct (validateBrowserState_fields (showLoadingError_merged state payload))
    as (_ & _ & _ & _ & -> & _).
Qed.

Lemma setLoadingState_kernel_flag
    (state : BrowserState) (url : string) (isLoading : bool) :
  is_Some (tasks state !! url) →
  isKernelLoading (setLoadingState state url isLoading) = false.
Proof. intros [task Hlook]. unfold setLoadingState. by rewrite Hlook. Qed.

(** * The kernel loading flag *)

(** C1, as stated, fails: [setKernelLoadingState] stores the payload flag
    whatever the tasks are.  From the initial state, which has no task,
    [setKernelLoadingState(true)] yields [isKernelLoading = true] although
    no task is loading. *)
Lemma kernel_loading_not_derived :
  ¬ (∀ state action,
       reachable state → kernelLoadingDerived (reducer state action)).
Proof.
  intros Hinv.
  destruct (Hinv initialState (SetKernelLoadingState true) reachable_init)
    as [Hto _].
  destruct (Hto eq_refl) as (url & task & Hlook & _).
  simpl in Hlook. by rewrite lookup_empty in Hlook.
Qed.

(** C1, amended: [isKernelLoading] is a stored flag that is not derived
    from the tasks on every transition.  [setKernelLoadingState] sets it to
    the payload flag; the catch phase of [navigateToUrlAsync] sets it to
    false; and every other transition, except [setLoadingState] for a tracked
    url and [showLoadingError], which overwrite it with the result of their
    scan, leaves it as it was: the begin phase, [clearTaskWithError] and
    [logUncaughtError] included, although they change the tasks. *)
Theorem kernel_loading_flag_updates (state : BrowserState) (action : Action) :
  ¬ storesScanResult state action →
  isKernelLoading (reducer state action)
  = match action with
    | SetKernelLoadingState isLoading => isLoading
    | NavigateToUrlCatch _ => false
    | _ => isKernelLoading state
    end.
Proof.
  intros Hstored.
  destruct action as [meta| | | [u|] | | | url b | | | | | payload | url | url];
    simpl in *; try reflexivity.
  - rewrite navigateToUrlAsync_begin_unfold.
    by destruct (validateBrowserState_fields (navigateToUrlAsync_merged state meta))
      as (_ & _ & _ & _ & -> & _).
  - unfold foregroundUrlAsync. by case_bool_decide.
  - unfold foregroundHomeAsync. by destruct (isShell state).
  - unfold setLoadingState.
    destruct (tasks state !! url) as [task|]; [|done].
    destruct Hstored. by eexists.
  - by destruct Hstored.
  - unfold clearTaskWithError. by destruct (tasks state !! url).
  - unfold logUncaughtError. by destruct (tasks state !! url).
Qed.

(** The flag set by the kernel while [https://a] is in the foreground stays
    true when that task, the only one, is evicted. *)
Lemma kernel_loading_flag_updates_witness :
  let state :=
    reducer (navigateToUrlAsync_begin initialState (plainMeta "https://a"))
      (SetKernelLoadingState true) in
  isKernelLoading state = true
  ∧ isKernelLoading (reducer state (ClearTaskWithError "https://a")) = true
  ∧ tasks (reducer state (ClearTaskWithError "https://a")) = ∅.
Proof.
  split_and!.
  - apply (kernel_loading_flag_updates
             (navigateToUrlAsync_begin initialState (plainMeta "https://a"))
             (SetKernelLoadingState true)).
    intros [].
  - rewrite (kernel_loading_flag_updates
               (reducer (navigateToUrlAsync_begin initialState (plainMeta "https://a"))
                  (SetKernelLoadingState true))
               (ClearTaskWithError "https://a")); [reflexivity | intros []].
  - vm_compute. reflexivity.
Defined.

(** * The catch phase of a navigation *)

(** C8: the catch phase of [navigateToUrlAsync] forces [isKernelLoading] to
    false and keeps every other field: shell settings, home visibility,
    foreground url, tasks and history. *)
Theorem navigateToUrlAsync_catch_frame (state : BrowserState) (payload : Json) :
  navigateToUrlAsync_catch state payload
  = {| isShell := isShell state;
       shellManifestUrl := shellManifestUrl state;
       shellInitialUrl := shellInitialUrl state;
       isHomeVisible := isHomeVisible state;
       isKernelLoading := false;
       foregroundTaskUrl := foregroundTaskUrl state;
       tasks := tasks state;
       history := history state |}.
Proof. reflexivity. Qed.

(** * Foregrounding a url *)

(** C6: [foregroundUrlAsync] with a null url, or with a url that has a task,
    sets [foregroundTaskUrl] to that url and hides home, keeping the other
    fields; with a non-null url that has no task it returns the state as it
    is, so [foregroundTaskUrl] does not change. *)
Theorem foregroundUrlAsync_spec (state : BrowserState) (url : option string) :
  ((url = None ∨ ∃ u, url = Some u ∧ is_Some (tasks state !! u)) →
     foregroundUrlAsync state url
     = {| isShell := isShell state;
          shellManifestUrl := shellManifestUrl state;
          shellInitialUrl := shellInitialUrl state;
          isHomeVisible := false;
          isKernelLoading := isKernelLoading state;
          foregroundTaskUrl := url;
          tasks := tasks state;
          history := history state |})
  ∧ (∀ u, url = Some u → tasks state !! u = None →
       foregroundUrlAsync state url = state
       ∧ foregroundTaskUrl (foregroundUrlAsync state url)
         = foregroundTaskUrl state).
Proof.
  split.
  - intros [-> | (u & -> & Hsome)]; [done|].
    unfold foregroundUrlAsync. by rewrite bool_decide_eq_true_2.
  - intros u -> Hnone. unfold foregroundUrlAsync.
    rewrite bool_decide_eq_false_2; [done|].
    rewrite Hnone. by intros [? ?].
Qed.

(** * Loading updates *)

(** C5, at the failing input: after a navigation to [https://a],
    [setLoadingState({url: "https://a", isLoading: true})] makes the task of
    [a] loading and yet stores [isKernelLoading = false].  The scan filters a
    lazy sequence: the result holds the loading task, but its size is
    undefined, so the test [size > 0] fails. *)
Theorem setLoadingState_kernel_flag_lost :
  let state := navigateToUrlAsync_begin initialState (plainMeta "https://a") in
  let state' := setLoadingState state "https://a" true in
  let loadingTasks := Seq.filter BrowserTask.isLoading (valueSeq (tasks state')) in
  tasks state' !! "https://a"
  = Some (BrowserTask.mk None None JNull true None JNull)
  ∧ someTaskLoading (tasks state')
  ∧ length (Seq.items loadingTasks) = 1
  ∧ Seq.size loadingTasks = None
  ∧ isKernelLoading state' = false
  ∧ ¬ kernelLoadingDerived state'.
Proof.
  assert (Hlook :
    tasks (setLoadingState
             (navigateToUrlAsync_begin initialState (plainMeta "https://a"))
             "https://a" true) !! "https://a"
    = Some (BrowserTask.mk None None JNull true None JNull))
    by (vm_compute; reflexivity).
  assert (Hsome :
    someTaskLoading
      (tasks (setLoadingState
                (navigateToUrlAsync_begin initialState (plainMeta "https://a"))
                "https://a" true))).
  { eexists _, _. split; [exact Hlook | reflexivity]. }
  split_and!.
  - exact Hlook.
  - exact Hsome.
  - vm_compute. reflexivity.
  - reflexivity.
  - vm_compute. reflexivity.
  - intros [_ Hfrom]. specialize (Hfrom Hsome). vm_compute in Hfrom. discriminate.
Qed.

(** * Evicting a task *)

(** C9: [clearTaskWithError] for a url that has a task shows home, clears the
    foreground url and removes that url from the tasks; for a url without a
    task it returns the state as it is; so running it a second time changes
    nothing. *)
Theorem clearTaskWithError_spec (state : BrowserState) (url : string) :
  let state' := clearTaskWithError state url in
  (is_Some (tasks state !! url) →
     isHomeVisible state' = true ∧ foregroundTaskUrl state' = None
     ∧ tasks state' !! url = None)
  ∧ (tasks state !! url = None → state' = state)
  ∧ clearTaskWithError state' url = state'.
Proof.
  unfold clearTaskWithError.
  destruct (tasks state !! url) as [task|] eqn:Hlook; simpl.
  - split_and!.
    + intros _. by rewrite lookup_delete_eq.
    + discriminate.
    + by rewrite lookup_delete_eq.
  - split_and!.
    + by intros [? ?].
    + done.
    + by rewrite Hlook.
Qed.

Lemma reducer_isShell (state : BrowserState) (action : Action) :
  isShell (reducer state action)
  = match action with
    | SetShellProperties isShell' _ => isShell'
    | _ => isShell state
    end.
Proof.
  destruct action as [meta| | | [u|] | | | url b | | | | | payload | url | url];
    simpl; try reflexivity.
  - rewrite navigateToUrlAsync_begin_unfold.
    by destruct (validateBrowserState_fields (navigateToUrlAsync_merged state meta))
      as (-> & _).
  - unfold foregroundUrlAsync. by case_bool_decide.
  - unfold foregroundHomeAsync. by destruct (isShell state) eqn:Hshell.
  - unfold setLoadingState. by destruct (tasks state !! url).
  - rewrite showLoadingError_unfold.
    by destruct (validateBrowserState_fields (showLoadingError_merged state payload))
      as (-> & _).
  - unfold clearTaskWithError. by destruct (tasks state !! url).
  - unfold logUncaughtError. by destruct (tasks state !! url).
Qed.

Lemma shell_home_stays_hidden (state : BrowserState) (action : Action) :
  isShell state = true → notClearTask action → isHomeVisible state = false →
  isHomeVisible (reducer state action) = false.
Proof.
  intros Hshell Hother Hhidden.
  destruct action as [meta| | | [u|] | | | url b | | | | | payload | url | url];
    simpl in *; try done.
  - rewrite navigateToUrlAsync_begin_unfold.
    by destruct (validateBrowserState_fields
                   (navigateToUrlAsync_merged state meta))
      as (_ & _ & _ & -> & _).
  - unfold foregroundUrlAsync. by case_bool_decide.
  - unfold foregroundHomeAsync. by rewrite Hshell.
  - unfold setLoadingState. by destruct (tasks state !! url).
  - rewrite showLoadingError_unfold.
    by destruct (validateBrowserState_fields
                   (showLoadingError_merged state payload))
      as (_ & _ & _ & -> & _).
  - unfold logUncaughtError. by destruct (tasks state !! url).
Qed.

(** C10: in shell mode, [clearTaskWithError] for a url that has a task makes
    home visible (and stays in shell mode).  No other transition does: from a
    shell state with home hidden, every other action leaves home hidden;
    [foregroundHomeAsync] returns a shell state as it is, and
    [setShellPropertiesAsync] hides home; so, as long as no
    [clearTaskWithError] is run, home is hidden in every shell state. *)
Theorem clearTaskWithError_shows_home_in_shell :
  (∀ state u,
     isShell state = true → is_Some (tasks state !! u) →
     isHomeVisible (clearTaskWithError state u) = true
     ∧ isShell (clearTaskWithError state u) = true)
  ∧ (∀ state action,
       isShell state = true → notClearTask action →
       isHomeVisible state = false →
       isHomeVisible (reducer state action) = false)
  ∧ (∀ state, isShell state = true → foregroundHomeAsync state = state)
  ∧ (∀ state isShell' shellManifestUrl',
       isHomeVisible (setShellPropertiesAsync state isShell' shellManifestUrl')
       = false)
  ∧ (∀ state,
       reachableWith notClearTask state →
       isShell state = true → isHomeVisible state = false).
Proof.
  split_and!.
  - intros state u Hshell [task Hlook].
    unfold clearTaskWithError. by rewrite Hlook.
  - apply shell_home_stays_hidden.
  - intros state Hshell. unfold foregroundHomeAsync. by rewrite Hshell.
  - done.
  - intros state Hreach.
    induction Hreach as [|state action Hreach IH Hother]; [discriminate|].
    destruct (isShell state) eqn:Hshell.
    + intros _. by apply shell_home_stays_hidden; [| |apply IH].
    + rewrite reducer_isShell.
      destruct action; rewrite ?Hshell; try discriminate.
      by intros _.
Qed.

(** * The normalization pass and the begin phase *)

Lemma validateBrowserState_lookup_Some
    (state : BrowserState) (fg url : string) (task : BrowserTask.t) :
  foregroundTaskUrl state = Some fg → fg ≠ "" →
  tasks (validateBrowserState state) !! url = Some task
  ↔ tasks state !! url = Some task
    ∧ (url = fg ∨ (isShell state = true ∧ Some url = shellManifestUrl state)).
Proof.
  intros Hfg Hne. rewrite (validateBrowserState_lookup _ fg) by done.
  rewrite <- keepTask_true.
  destruct (keepTask state fg url).
  - tauto.
  - split; [discriminate | intros [_ ?]; discriminate].
Qed.

Lemma validateBrowserState_normalized (state : BrowserState) (fg : string) :
  foregroundTaskUrl state = Some fg → fg ≠ "" →
  tasksNormalized (validateBrowserState state).
Proof.
  intros Hfg Hne url [task Hlook].
  apply (validateBrowserState_lookup_Some _ fg) in Hlook as [_ Hkeep]; [|done..].
  destruct (validateBrowserState_fields state) as (-> & -> & _ & _ & _ & -> & _).
  rewrite Hfg. destruct Hkeep as [-> | ?]; [by left | by right].
Qed.

Lemma tasksNormalized_restricted (state : BrowserState) :
  tasksNormalized state → shellTasksRestricted state.
Proof.
  intros Hnorm _ _ url Hsome.
  destruct (Hnorm url Hsome) as [? | [_ ?]]; [by left | by right].
Qed.

Lemma navigateToUrlAsync_begin_history (state : BrowserState) (meta : NavMeta.t) :
  history (navigateToUrlAsync_begin state meta)
  = new_HistoryItem (NavMeta.historyItem meta)
    :: List.filter (otherUrl (new_HistoryItem (NavMeta.historyItem meta)))
         (history state).
Proof.
  rewrite navigateToUrlAsync_begin_unfold.
  by destruct (validateBrowserState_fields (navigateToUrlAsync_merged state meta))
    as (_ & _ & _ & _ & _ & _ & ->).
Qed.

Lemma navigateToUrlAsync_begin_foreground (state : BrowserState) (meta : NavMeta.t) :
  foregroundTaskUrl (navigateToUrlAsync_begin state meta) = Some (NavMeta.url meta)
  ∧ isShell (navigateToUrlAsync_begin state meta) = isShell state.
Proof.
  rewrite navigateToUrlAsync_begin_unfold.
  by destruct (validateBrowserState_fields (navigateToUrlAsync_merged state meta))
    as (-> & _ & _ & _ & _ & -> & _).
Qed.

(** Outside shell mode a navigation to a non-empty url leaves one task. *)
Lemma navigateToUrlAsync_begin_tasks_nonshell
    (state : BrowserState) (meta : NavMeta.t) :
  isShell state = false → NavMeta.url meta ≠ "" →
  tasks (navigateToUrlAsync_begin state meta)
  = {[ NavMeta.url meta := (createImmutableTask meta).2 ]}.
Proof.
  intros Hshell Hne. apply map_eq. intros k.
  rewrite navigateToUrlAsync_begin_unfold.
  rewrite (validateBrowserState_lookup _ (NavMeta.url meta)) by done.
  unfold keepTask. simpl. rewrite Hshell. simpl. rewrite orb_false_r.
  case_bool_decide as Hk.
  - subst k. by rewrite lookup_insert_eq, lookup_singleton_eq.
  - by rewrite lookup_singleton_ne.
Qed.

(** C2, as stated, fails: the pass also filters outside shell mode, where it
    keeps the foreground task only.  After navigating to [https://a], to
    [https://b] and to [https://a] again from the initial state, the task of
    [https://b] is gone. *)
Lemma three_navigations_drop_b :
  ¬ (let s := run initialState
                [NavigateToUrlBegin (plainMeta "https://a");
                 NavigateToUrlBegin (plainMeta "https://b");
                 NavigateToUrlBegin (plainMeta "https://a")] in
     map HistoryItem.url (history s) = [Some "https://a"; Some "https://b"]
     ∧ is_Some (tasks s !! "https://a")
     ∧ is_Some (tasks s !! "https://b")
     ∧ foregroundTaskUrl s = Some "https://a").
Proof.
  intros (_ & _ & [task Hb] & _). vm_compute in Hb. discriminate.
Qed.

(** C2, amended: whenever the foreground url is non-empty, the normalization
    pass keeps exactly the tasks whose url is the foreground url or, in shell
    mode, the shell manifest url; it does so in shell mode and outside it.
    Hence, from the initial non-shell state, navigating to [https://a], to
    [https://b] and to [https://a] again yields [history = [a, b]], a task
    map that holds the task of [a] only, and [foregroundTaskUrl = a]. *)
Theorem validateBrowserState_keeps_foreground_only :
  (∀ state fg url task,
     foregroundTaskUrl state = Some fg → fg ≠ "" →
     tasks (validateBrowserState state) !! url = Some task
     ↔ tasks state !! url = Some task
       ∧ (url = fg ∨ (isShell state = true ∧ Some url = shellManifestUrl state)))
  ∧ (∀ m1 m2 m3,
       navigatesTo m1 "https://a" → navigatesTo m2 "https://b" →
       navigatesTo m3 "https://a" →
       let s := run initialState
                  [NavigateToUrlBegin m1; NavigateToUrlBegin m2;
                   NavigateToUrlBegin m3] in
       map HistoryItem.url (history s) = [Some "https://a"; Some "https://b"]
       ∧ dom (tasks s) = {[ "https://a" ]}
       ∧ tasks s !! "https://b" = None
       ∧ foregroundTaskUrl s = Some "https://a").
Proof.
  split; [apply validateBrowserState_lookup_Some|].
  intros m1 m2 m3 [Hu1 Hi1] [Hu2 Hi2] [Hu3 Hi3]. simpl.
  set (s1 := navigateToUrlAsync_begin initialState m1).
  set (s2 := navigateToUrlAsync_begin s1 m2).
  destruct (navigateToUrlAsync_begin_foreground initialState m1) as [_ Hsh1].
  destruct (navigateToUrlAsync_begin_foreground s1 m2) as [_ Hsh2].
  destruct (navigateToUrlAsync_begin_foreground s2 m3) as [Hfg3 _].
  fold s1 in Hsh1. fold s2 in Hsh2. rewrite Hsh1 in Hsh2. simpl in Hsh1, Hsh2.
  assert (Htasks : tasks (navigateToUrlAsync_begin s2 m3)
                   = {[ "https://a" := (createImmutableTask m3).2 ]}).
  { rewrite navigateToUrlAsync_begin_tasks_nonshell; rewrite ?Hu3; done. }
  split_and!.
  - rewrite navigateToUrlAsync_begin_history. unfold s2.
    rewrite navigateToUrlAsync_begin_history. unfold s1.
    rewrite navigateToUrlAsync_begin_history.
    unfold otherUrl, new_HistoryItem. simpl. rewrite Hi1, Hi2, Hi3.
    reflexivity.
  - rewrite Htasks. by rewrite dom_singleton_L.
  - rewrite Htasks. by rewrite lookup_singleton_ne.
  - by rewrite Hfg3, Hu3.
Qed.

(** A concrete run of the scenario of C2. *)
Lemma validateBrowserState_keeps_foreground_only_witness :
  let s := run initialState
             [NavigateToUrlBegin (plainMeta "https://a");
              NavigateToUrlBegin (plainMeta "https://b");
              NavigateToUrlBegin (plainMeta "https://a")] in
  map HistoryItem.url (history s) = [Some "https://a"; Some "https://b"]
  ∧ dom (tasks s) = {[ "https://a" ]}
  ∧ tasks s !! "https://b" = None
  ∧ foregroundTaskUrl s = Some "https://a".
Proof.
  apply (proj2 validateBrowserState_keeps_foreground_only
           (plainMeta "https://a") (plainMeta "https://b") (plainMeta "https://a"));
    split; reflexivity.
Defined.

(** * The shell restriction *)

Lemma showLoadingError_foreground (state : BrowserState) (payload : ErrorPayload.t) :
  foregroundTaskUrl (showLoadingError state payload)
  = Some (ErrorPayload.originalUrl payload)
  ∧ isHomeVisible (showLoadingError state payload) = false
  ∧ isShell (showLoadingError state payload) = isShell state.
Proof.
  rewrite showLoadingError_unfold.
  by destruct (validateBrowserState_fields (showLoadingError_merged state payload))
    as (-> & _ & _ & -> & _ & -> & _).
Qed.

Lemma insert_present_is_Some
    (ts : gmap string BrowserTask.t) (url k : string) (task : BrowserTask.t) :
  is_Some (ts !! url) → is_Some (<[url := task]> ts !! k) → is_Some (ts !! k).
Proof.
  intros Hurl. destruct (decide (url = k)) as [<-|Hne].
  - done.
  - by rewrite lookup_insert_ne.
Qed.

(** C3, as stated, fails: [foregroundUrlAsync] changes the foreground url
    without running the normalization pass.  In shell mode with manifest
    [https://m], after navigating to [https://m] and to [https://a] the tasks
    are those of [m] and [a]; foregrounding [m] then leaves the task of [a],
    which is neither the foreground url nor the shell manifest url. *)
Lemma shell_restriction_not_invariant :
  ¬ (∀ state, reachable state → shellTasksRestricted state).
Proof.
  intros Hinv.
  pose proof (Hinv _ (reachable_run initialState
    [SetShellProperties true (Some "https://m");
     NavigateToUrlBegin (plainMeta "https://m");
     NavigateToUrlBegin (plainMeta "https://a");
     ForegroundUrl (Some "https://m")] reachable_init)) as Hres.
  unfold shellTasksRestricted in Hres.
  assert (Hbad : Some "https://a" = Some "https://m" ∨ Some "https://a" = Some "https://m").
  { vm_compute in Hres. apply Hres.
    - reflexivity.
    - discriminate.
    - by eexists. }
  destruct Hbad; discriminate.
Qed.

(** C3, amended: in the state produced by the begin phase of
    [navigateToUrlAsync] or by [showLoadingError] for a non-empty url, every
    key of [tasks] is [foregroundTaskUrl] or, when [isShell] is true,
    [shellManifestUrl]; and every transition other than [foregroundUrlAsync]
    with a non-null url and [setShellPropertiesAsync] (and these two with an
    empty url) keeps the property that, when [isShell] is true and
    [foregroundTaskUrl] is non-null, every key of [tasks] is
    [foregroundTaskUrl] or [shellManifestUrl]. *)
Theorem shell_restriction_after_normalization :
  (∀ state meta, NavMeta.url meta ≠ "" →
     tasksNormalized (navigateToUrlAsync_begin state meta)
     ∧ shellTasksRestricted (navigateToUrlAsync_begin state meta))
  ∧ (∀ state payload, ErrorPayload.originalUrl payload ≠ "" →
       tasksNormalized (showLoadingError state payload)
       ∧ shellTasksRestricted (showLoadingError state payload))
  ∧ (∀ state action,
       keepsShellRestriction action → shellTasksRestricted state →
       shellTasksRestricted (reducer state action)).
Proof.
  assert (Hbegin : ∀ state meta, NavMeta.url meta ≠ "" →
            tasksNormalized (navigateToUrlAsync_begin state meta)).
  { intros state meta Hne. rewrite navigateToUrlAsync_begin_unfold.
    by apply (validateBrowserState_normalized _ (NavMeta.url meta)). }
  assert (Herror : ∀ state payload, ErrorPayload.originalUrl payload ≠ "" →
            tasksNormalized (showLoadingError state payload)).
  { intros state payload Hne. rewrite showLoadingError_unfold.
    by apply (validateBrowserState_normalized _ (ErrorPayload.originalUrl payload)). }
  split_and!.
  - intros state meta Hne. split; [|apply tasksNormalized_restricted]; auto.
  - intros state payload Hne. split; [|apply tasksNormalized_restricted]; auto.
  - intros state action Hkeeps Hres.
    destruct action as [meta| | | [u|] | | | url b | | | | | payload | url | url];
      simpl in *; try done.
    + apply tasksNormalized_restricted; auto.
    + intros _ Hfg. by destruct Hfg.
    + unfold foregroundHomeAsync. by destruct (isShell state).
    + unfold setLoadingState.
      destruct (tasks state !! url) as [task|] eqn:Hlook; [|done].
      intros Hshell Hfg k Hk. simpl in *.
      apply (Hres Hshell Hfg k).
      eapply insert_present_is_Some; [|exact Hk]. by rewrite Hlook.
    + apply tasksNormalized_restricted; auto.
    + unfold clearTaskWithError.
      destruct (tasks state !! url); [|done].
      intros _ Hfg. by destruct Hfg.
    + unfold logUncaughtError.
      destruct (tasks state !! url) as [task|] eqn:Hlook; [|done].
      intros Hshell Hfg k Hk. simpl in *.
      apply (Hres Hshell Hfg k).
      eapply insert_present_is_Some; [|exact Hk]. by rewrite Hlook.
Qed.

(** * The history log *)

Lemma NoDup_map_filter {A B : Type} (f : A → B) (p : A → bool) (l : list A) :
  NoDup (map f l) → NoDup (map f (List.filter p l)).
Proof.
  induction l as [|x l IH]; simpl; [done|].
  rewrite NoDup_cons. intros [Hx Hl].
  destruct (p x); simpl; [|by apply IH].
  apply NoDup_cons. split; [|by apply IH].
  intros Hin. apply Hx.
  apply list_elem_of_In, in_map_iff in Hin as (y & Hy & Hin).
  apply filter_In in Hin as [Hin _].
  apply list_elem_of_In, in_map_iff. eauto.
Qed.

Lemma filter_otherUrl_fresh (item : HistoryItem.t) (h : list HistoryItem.t) :
  HistoryItem.url item ∉ map HistoryItem.url (List.filter (otherUrl item) h).
Proof.
  intros Hin.
  apply list_elem_of_In, in_map_iff in Hin as (old & Hurl & Hin).
  apply filter_In in Hin as [_ Hother].
  unfold otherUrl in Hother. apply bool_decide_eq_true in Hother. done.
Qed.

Lemma prepend_unique (item : HistoryItem.t) (h : list HistoryItem.t) :
  uniqueUrls h → uniqueUrls (item :: List.filter (otherUrl item) h).
Proof.
  intros Hh. unfold uniqueUrls. simpl. apply NoDup_cons. split.
  - apply filter_otherUrl_fresh.
  - by apply NoDup_map_filter.
Qed.

Lemma createImmutableHistory_urls (payload : list RawItem.t) :
  map HistoryItem.url (createImmutableHistory payload) = map RawItem.url payload.
Proof.
  unfold createImmutableHistory. induction payload as [|item rest IH]; simpl.
  - done.
  - by rewrite IH.
Qed.

(** The transitions that are neither a begin phase nor a bulk replace nor a
    clear keep the history. *)
Lemma reducer_history (state : BrowserState) (action : Action) :
  history (reducer state action)
  = match action with
    | NavigateToUrlBegin meta =>
        new_HistoryItem (NavMeta.historyItem meta)
        :: List.filter (otherUrl (new_HistoryItem (NavMeta.historyItem meta)))
             (history state)
    | NavigateToUrlThen payload | LoadHistoryThen payload =>
        createImmutableHistory payload
    | ClearHistoryThen => []
    | _ => history state
    end.
Proof.
  destruct action as [meta| | | [u|] | | | url b | | | | | payload | url | url];
    simpl; try reflexivity.
  - apply navigateToUrlAsync_begin_history.
  - unfold foregroundUrlAsync. by case_bool_decide.
  - unfold foregroundHomeAsync. by destruct (isShell state).
  - unfold setLoadingState. by destruct (tasks state !! url).
  - rewrite showLoadingError_unfold.
    by destruct (validateBrowserState_fields (showLoadingError_merged state payload))
      as (_ & _ & _ & _ & _ & _ & ->).
  - unfold clearTaskWithError. by destruct (tasks state !! url).
  - unfold logUncaughtError. by destruct (tasks state !! url).
Qed.

(** C4, as stated, fails: the then phases install the payload list as it
    comes.  [loadHistoryAsync.then] with a list that names [https://a] twice
    yields a history with two items of that url. *)
Lemma history_duplicates_reachable :
  ¬ (∀ state, reachable state → uniqueUrls (history state)).
Proof.
  intros Hinv.
  pose proof (Hinv _ (reachable_step initialState
    (LoadHistoryThen [plainItem "https://a"; plainItem "https://a"])
    reachable_init)) as Hdup.
  unfold uniqueUrls in Hdup. simpl in Hdup.
  apply NoDup_cons in Hdup as [Hfresh _]. apply Hfresh. left.
Qed.

(** C4, amended: no two items of [history] share a url in every state reached
    by actions whose then-phase payload lists have no two items with the same
    url; the then phases of [navigateToUrlAsync] and [loadHistoryAsync]
    install the payload list as given, in its order and with its urls; and
    the begin phase puts the new item at the front, followed by the old items
    of a different url, in their order, so that a stale copy is removed. *)
Theorem history_urls_unique :
  (∀ state, reachableWith payloadUnique state → uniqueUrls (history state))
  ∧ (∀ state payload,
       history (navigateToUrlAsync_then state payload)
       = createImmutableHistory payload
       ∧ history (loadHistoryAsync_then state payload)
         = createImmutableHistory payload
       ∧ map HistoryItem.url (createImmutableHistory payload)
         = map RawItem.url payload)
  ∧ (∀ state meta,
       let item := new_HistoryItem (NavMeta.historyItem meta) in
       let rest := List.filter (otherUrl item) (history state) in
       history (navigateToUrlAsync_begin state meta) = item :: rest
       ∧ (∀ old, old ∈ rest
                 ↔ (old ∈ history state
                    ∧ HistoryItem.url old ≠ HistoryItem.url item))
       ∧ (HistoryItem.url item ∉ map HistoryItem.url rest)
       ∧ (uniqueUrls (history state) →
          uniqueUrls (history (navigateToUrlAsync_begin state meta)))).
Proof.
  split_and!.
  - intros state Hreach.
    induction Hreach as [|state action Hreach IH Hpayload].
    + apply NoDup_nil_2.
    + rewrite reducer_history.
      destruct action; simpl in Hpayload; try exact IH.
      * by apply prepend_unique.
      * unfold uniqueUrls. by rewrite createImmutableHistory_urls.
      * unfold uniqueUrls. by rewrite createImmutableHistory_urls.
      * apply NoDup_nil_2.
  - intros state payload. split_and!; [done | done |].
    apply createImmutableHistory_urls.
  - intros state meta item rest. split_and!.
    + apply navigateToUrlAsync_begin_history.
    + intros old. unfold rest.
      rewrite !list_elem_of_In, filter_In. unfold otherUrl.
      by rewrite bool_decide_eq_true.
    + apply filter_otherUrl_fresh.
    + intros Huniq. rewrite navigateToUrlAsync_begin_history.
      by apply prepend_unique.
Qed.

(** A history with a stale copy of [https://a] behind [https://b]: navigating
    to [https://a] moves it to the front. *)
Lemma history_urls_unique_witness :
  let state :=
    run initialState
      [NavigateToUrlBegin (plainMeta "https://a");
       NavigateToUrlBegin (plainMeta "https://b")] in
  map HistoryItem.url (history state) = [Some "https://b"; Some "https://a"]
  ∧ map HistoryItem.url
      (history (navigateToUrlAsync_begin state (plainMeta "https://a")))
    = [Some "https://a"; Some "https://b"]
  ∧ uniqueUrls (history (navigateToUrlAsync_begin state (plainMeta "https://a"))).
Proof.
  split_and!.
  - reflexivity.
  - reflexivity.
  - apply (proj1 history_urls_unique
             (run initialState
                [NavigateToUrlBegin (plainMeta "https://a");
                 NavigateToUrlBegin (plainMeta "https://b");
                 NavigateToUrlBegin (plainMeta "https://a")])).
    repeat (apply reachableWith_step; [|exact I]).
    apply reachableWith_init.
Defined.

(** * Showing a loading error *)

Lemma showLoadingError_lookup (state : BrowserState) (payload : ErrorPayload.t) :
  tasks (showLoadingError state payload) !! ErrorPayload.originalUrl payload
  = Some (errorTask state payload).
Proof.
  rewrite showLoadingError_unfold.
  destruct (decide (ErrorPayload.originalUrl payload = "")) as [Hempty|Hne].
  - rewrite validateBrowserState_falsy.
    + simpl. apply lookup_insert_eq.
    + right. simpl. by rewrite Hempty.
  - rewrite (validateBrowserState_lookup _ (ErrorPayload.originalUrl payload))
      by done.
    unfold keepTask. rewrite bool_decide_eq_true_2 by done. simpl.
    apply lookup_insert_eq.
Qed.

Lemma validateBrowserState_subseteq
    (state : BrowserState) (url : string) (task : BrowserTask.t) :
  tasks (validateBrowserState state) !! url = Some task →
  tasks state !! url = Some task.
Proof.
  unfold validateBrowserState.
  destruct (foregroundTaskUrl state) as [fg|]; [|done].
  destruct (truthy fg); [|done]. simpl.
  intros Hlook. by apply map_lookup_filter_Some in Hlook as [? _].
Qed.

(** C7, at the failing input: a shell with manifest [https://m] whose task
    is loading.  [showLoadingError] for [https://a] stores the error task of
    [a], keeps the task of [m], which is still loading, and yet stores
    [isKernelLoading = false]: the flag does not say whether a remaining
    task is loading. *)
Theorem showLoadingError_kernel_flag_lost :
  let state :=
    run initialState
      [SetShellProperties true (Some "https://m");
       NavigateToUrlBegin (plainMeta "https://m");
       SetLoadingState "https://m" true] in
  let state' :=
    showLoadingError state (ErrorPayload.mk "https://a" (Some 404%Z) None JNull) in
  tasks state' !! "https://m"
  = Some (BrowserTask.mk None None JNull true None JNull)
  ∧ BrowserTask.isLoading <$> tasks state' !! "https://a" = Some false
  ∧ foregroundTaskUrl state' = Some "https://a"
  ∧ someTaskLoading (tasks state')
  ∧ isKernelLoading state' = false
  ∧ ¬ kernelLoadingDerived state'.
Proof.
  assert (Hlook :
    tasks (showLoadingError
             (run initialState
                [SetShellProperties true (Some "https://m");
                 NavigateToUrlBegin (plainMeta "https://m");
                 SetLoadingState "https://m" true])
             (ErrorPayload.mk "https://a" (Some 404%Z) None JNull)) !! "https://m"
    = Some (BrowserTask.mk None None JNull true None JNull))
    by (vm_compute; reflexivity).
  assert (Hsome :
    someTaskLoading
      (tasks (showLoadingError
                (run initialState
                   [SetShellProperties true (Some "https://m");
                    NavigateToUrlBegin (plainMeta "https://m");
                    SetLoadingState "https://m" true])
                (ErrorPayload.mk "https://a" (Some 404%Z) None JNull)))).
  { eexists _, _. split; [exact Hlook | reflexivity]. }
  split_and!.
  - exact Hlook.
  - vm_compute. reflexivity.
  - vm_compute. reflexivity.
  - exact Hsome.
  - apply showLoadingError_kernel_flag.
  - intros [_ Hfrom]. specialize (Hfrom Hsome).
    rewrite showLoadingError_kernel_flag in Hfrom. discriminate.
Qed.

(** * Concrete runs of the other transitions *)

(** Foregrounding the tracked [https://a], and the untracked [https://z]. *)
Lemma foregroundUrlAsync_spec_witness :
  let state :=
    foregroundHomeAsync
      (navigateToUrlAsync_begin initialState (plainMeta "https://a")) in
  isHomeVisible state = true
  ∧ isHomeVisible (foregroundUrlAsync state (Some "https://a")) = false
  ∧ foregroundTaskUrl (foregroundUrlAsync state (Some "https://a"))
    = Some "https://a"
  ∧ foregroundUrlAsync state (Some "https://z") = state.
Proof.
  split_and!.
  - reflexivity.
  - rewrite (proj1 (foregroundUrlAsync_spec _ (Some "https://a"))).
    + reflexivity.
    + right. exists "https://a". split; [reflexivity|].
      vm_compute. by eexists.
  - rewrite (proj1 (foregroundUrlAsync_spec _ (Some "https://a"))).
    + reflexivity.
    + right. exists "https://a". split; [reflexivity|].
      vm_compute. by eexists.
  - apply (proj2 (foregroundUrlAsync_spec _ (Some "https://z")) "https://z").
    + reflexivity.
    + vm_compute. reflexivity.
Defined.

(** Evicting the tracked [https://a], and the untracked [https://z]. *)
Lemma clearTaskWithError_spec_witness :
  let state := navigateToUrlAsync_begin initialState (plainMeta "https://a") in
  (isHomeVisible (clearTaskWithError state "https://a") = true
   ∧ foregroundTaskUrl (clearTaskWithError state "https://a") = None
   ∧ tasks (clearTaskWithError state "https://a") !! "https://a" = None)
  ∧ clearTaskWithError state "https://z" = state.
Proof.
  split.
  - apply (proj1 (clearTaskWithError_spec
                    (navigateToUrlAsync_begin initialState (plainMeta "https://a"))
                    "https://a")).
    vm_compute. by eexists.
  - apply (proj1 (proj2 (clearTaskWithError_spec
                    (navigateToUrlAsync_begin initialState (plainMeta "https://a"))
                    "https://z"))).
    vm_compute. reflexivity.
Defined.

(** A shell whose one task, [https://m], is evicted. *)
Lemma clearTaskWithError_shows_home_in_shell_witness :
  let state :=
    run initialState
      [SetShellProperties true (Some "https://m");
       NavigateToUrlBegin (plainMeta "https://m")] in
  isShell state = true ∧ isHomeVisible state = false
  ∧ isHomeVisible (clearTaskWithError state "https://m") = true
  ∧ isHomeVisible (reducer state ForegroundHome) = false.
Proof.
  assert (Hshell : isShell (run initialState
            [SetShellProperties true (Some "https://m");
             NavigateToUrlBegin (plainMeta "https://m")]) = true)
    by (vm_compute; reflexivity).
  destruct clearTaskWithError_shows_home_in_shell
    as (Hclear & Hother & _ & _ & Hinv).
  assert (Hhidden : isHomeVisible (run initialState
            [SetShellProperties true (Some "https://m");
             NavigateToUrlBegin (plainMeta "https://m")]) = false).
  { apply Hinv; [|exact Hshell].
    repeat (apply reachableWith_step; [|exact I]).
    apply reachableWith_init. }
  split_and!.
  - exact Hshell.
  - exact Hhidden.
  - apply Hclear; [exact Hshell|]. vm_compute. by eexists.
  - apply Hother; [exact Hshell | exact I | exact Hhidden].
Defined.

(** A shell with manifest [https://m] that navigates to [https://a]: the
    tasks are normalized, and a later loading update keeps them so. *)
Lemma shell_restriction_after_normalization_witness :
  let state :=
    run initialState
      [SetShellProperties true (Some "https://m");
       NavigateToUrlBegin (plainMeta "https://m")] in
  tasksNormalized (navigateToUrlAsync_begin state (plainMeta "https://a"))
  ∧ shellTasksRestricted
      (reducer (navigateToUrlAsync_begin state (plainMeta "https://a"))
         (SetLoadingState "https://a" true)).
Proof.
  destruct shell_restriction_after_normalization as (Hbegin & _ & Hkeep).
  split.
  - apply Hbegin. discriminate.
  - apply Hkeep; [exact I|]. apply Hbegin. discriminate.
Defined.

(** * Further properties of the reducer *)

(** ** Shared facts *)

Lemma BrowserState_eq (s1 s2 : BrowserState) :
  isShell s1 = isShell s2 → shellManifestUrl s1 = shellManifestUrl s2 →
  shellInitialUrl s1 = shellInitialUrl s2 → isHomeVisible s1 = isHomeVisible s2 →
  isKernelLoading s1 = isKernelLoading s2 →
  foregroundTaskUrl s1 = foregroundTaskUrl s2 →
  tasks s1 = tasks s2 → history s1 = history s2 → s1 = s2.
Proof. destruct s1, s2. simpl. by intros -> -> -> -> -> -> -> ->. Qed.

Lemma navigateToUrlAsync_begin_lookup (state : BrowserState) (meta : NavMeta.t) :
  tasks (navigateToUrlAsync_begin state meta) !! NavMeta.url meta
  = Some (createImmutableTask meta).2.
Proof.
  rewrite navigateToUrlAsync_begin_unfold.
  destruct (decide (NavMeta.url meta = "")) as [Hempty|Hne].
  - rewrite validateBrowserState_falsy.
    + simpl. apply lookup_insert_eq.
    + right. simpl. by rewrite Hempty.
  - rewrite (validateBrowserState_lookup _ (NavMeta.url meta)) by done.
    unfold keepTask. rewrite bool_decide_eq_true_2 by done. simpl.
    apply lookup_insert_eq.
Qed.

Lemma navigateToUrlAsync_begin_lookup_Some
    (state : BrowserState) (meta : NavMeta.t) (k : string) (task : BrowserTask.t) :
  tasks (navigateToUrlAsync_begin state meta) !! k = Some task →
  (k = NavMeta.url meta ∧ task = (createImmutableTask meta).2)
  ∨ (k ≠ NavMeta.url meta ∧ tasks state !! k = Some task).
Proof.
  intros Hlook. destruct (decide (k = NavMeta.url meta)) as [->|Hne].
  - left. rewrite navigateToUrlAsync_begin_lookup in Hlook.
    split; [done | congruence].
  - right. split; [done|].
    rewrite navigateToUrlAsync_begin_unfold in Hlook.
    apply validateBrowserState_subseteq in Hlook. simpl in Hlook.
    by rewrite lookup_insert_ne in Hlook.
Qed.

Lemma showLoadingError_lookup_Some
    (state : BrowserState) (payload : ErrorPayload.t)
    (k : string) (task : BrowserTask.t) :
  tasks (showLoadingError state payload) !! k = Some task →
  (k = ErrorPayload.originalUrl payload ∧ task = errorTask state payload)
  ∨ (k ≠ ErrorPayload.originalUrl payload ∧ tasks state !! k = Some task).
Proof.
  intros Hlook.
  destruct (decide (k = ErrorPayload.originalUrl payload)) as [->|Hne].
  - left. rewrite showLoadingError_lookup in Hlook.
    split; [done | congruence].
  - right. split; [done|].
    rewrite showLoadingError_unfold in Hlook.
    apply validateBrowserState_subseteq in Hlook. simpl in Hlook.
    by rewrite lookup_insert_ne in Hlook.
Qed.

(** ** The foreground task *)

Lemma reducer_foregroundTracked (state : BrowserState) (action : Action) :
  foregroundTracked state → foregroundTracked (reducer state action).
Proof.
  intros Htracked.
  destruct action as [meta| | | [u|] | | | url b | | | | | payload | url | url];
    simpl; try exact Htracked.
  - intros u Hfg.
    destruct (navigateToUrlAsync_begin_foreground state meta) as [Hfg' _].
    rewrite Hfg' in Hfg. injection Hfg as <-.
    by rewrite navigateToUrlAsync_begin_lookup.
  - unfold foregroundUrlAsync. case_bool_decide as Hsome; [|exact Htracked].
    intros k Hfg. simpl in Hfg. by injection Hfg as <-.
  - intros k Hfg. discriminate.
  - unfold foregroundHomeAsync. by destruct (isShell state).
  - unfold setLoadingState.
    destruct (tasks state !! url) as [task|] eqn:Hlook; [|exact Htracked].
    intros k Hfg. simpl in *. apply lookup_insert_is_Some'. right. by apply Htracked.
  - intros u Hfg.
    destruct (showLoadingError_foreground state payload) as (Hfg' & _).
    rewrite Hfg' in Hfg. injection Hfg as <-.
    by rewrite showLoadingError_lookup.
  - unfold clearTaskWithError.
    destruct (tasks state !! url); [|exact Htracked].
    intros k Hfg. discriminate.
  - unfold logUncaughtError.
    destruct (tasks state !! url) as [task|] eqn:Hlook; [|exact Htracked].
    intros k Hfg. simpl in *. apply lookup_insert_is_Some'. right. by apply Htracked.
Qed.

(** X1: in every state the reducer can reach from the initial state, the
    foreground url, when it is not null, is the url of a task; and every
    transition keeps this, from whatever state it starts. *)
Theorem foreground_task_is_tracked :
  (∀ state, reachable state → foregroundTracked state)
  ∧ (∀ state action,
       foregroundTracked state → foregroundTracked (reducer state action)).
Proof.
  split; [|apply reducer_foregroundTracked].
  intros state Hreach. induction Hreach as [|state action _ IH].
  - intros u Hfg. discriminate.
  - by apply reducer_foregroundTracked.
Qed.

(** A navigation, an eviction of another url, and a navigation again: the
    foreground url stays tracked. *)
Lemma foreground_task_is_tracked_witness :
  foregroundTracked
    (run initialState
       [NavigateToUrlBegin (plainMeta "https://a");
        SetLoadingState "https://a" true;
        ForegroundUrl (Some "https://z")]).
Proof.
  apply (proj1 foreground_task_is_tracked).
  apply reachable_run, reachable_init.
Defined.

(** ** Beginning a navigation *)

Lemma navigateToUrlAsync_begin_frame (state : BrowserState) (meta : NavMeta.t) :
  let state' := navigateToUrlAsync_begin state meta in
  isHomeVisible state' = false
  ∧ isKernelLoading state' = isKernelLoading state
  ∧ shellManifestUrl state' = shellManifestUrl state
  ∧ shellInitialUrl state' = shellInitialUrl state.
Proof.
  simpl. rewrite navigateToUrlAsync_begin_unfold.
  by destruct (validateBrowserState_fields (navigateToUrlAsync_merged state meta))
    as (_ & -> & -> & -> & -> & _).
Qed.

(** X2: the begin phase of [navigateToUrlAsync] stores at the url a task
    built from the meta that is not loading and has no error, whatever task
    was there before and also when the url is empty; every task it keeps
    besides is an old task, unchanged; it makes the url the foreground url
    and hides home; and it leaves the kernel flag and the shell fields as
    they were. *)
Theorem navigateToUrlAsync_begin_spec (state : BrowserState) (meta : NavMeta.t) :
  let state' := navigateToUrlAsync_begin state meta in
  tasks state' !! NavMeta.url meta
  = Some {| BrowserTask.bundleUrl := NavMeta.bundleUrl meta;
            BrowserTask.manifestUrl := NavMeta.manifestUrl meta;
            BrowserTask.manifest := NavMeta.manifest meta;
            BrowserTask.isLoading := false;
            BrowserTask.loadingError := None;
            BrowserTask.initialProps := NavMeta.initialProps meta |}
  ∧ (∀ k task, k ≠ NavMeta.url meta → tasks state' !! k = Some task →
       tasks state !! k = Some task)
  ∧ foregroundTaskUrl state' = Some (NavMeta.url meta)
  ∧ isHomeVisible state' = false
  ∧ isKernelLoading state' = isKernelLoading state
  ∧ isShell state' = isShell state
  ∧ shellManifestUrl state' = shellManifestUrl state
  ∧ shellInitialUrl state' = shellInitialUrl state.
Proof.
  intros state'. unfold state'.
  destruct (navigateToUrlAsync_begin_frame state meta)
    as (Hhome & Hkernel & Hmanifest & Hinitial).
  split_and!; try done.
  - apply navigateToUrlAsync_begin_lookup.
  - intros k task Hne Hlook.
    apply navigateToUrlAsync_begin_lookup_Some in Hlook as [[? _] | [_ ?]]; done.
  - apply navigateToUrlAsync_begin_foreground.
  - apply navigateToUrlAsync_begin_foreground.
Qed.

(** Navigating to a url whose task is loading replaces that task. *)
Lemma navigateToUrlAsync_begin_spec_witness :
  let state :=
    run initialState
      [NavigateToUrlBegin (plainMeta "https://a");
       SetLoadingState "https://a" true] in
  tasks state !! "https://a" = Some (BrowserTask.mk None None JNull true None JNull)
  ∧ tasks (navigateToUrlAsync_begin state (plainMeta "https://a")) !! "https://a"
    = Some (BrowserTask.mk None None JNull false None JNull).
Proof.
  split.
  - vm_compute. reflexivity.
  - apply (navigateToUrlAsync_begin_spec
             (run initialState
                [NavigateToUrlBegin (plainMeta "https://a");
                 SetLoadingState "https://a" true])
             (plainMeta "https://a")).
Defined.

(** ** Uncaught errors *)

(** X3: [logUncaughtError] for a url without a task returns the state as it
    is.  For a url with a task it sets that task's [isLoading] to false and
    keeps the task's other fields, its error included, the other tasks and
    every other field of the state, [isKernelLoading] included; running it a
    second time changes nothing. *)
Theorem logUncaughtError_spec (state : BrowserState) (url : string) :
  let state' := logUncaughtError state url in
  (tasks state !! url = None → state' = state)
  ∧ (∀ task, tasks state !! url = Some task →
       tasks state' !! url
       = Some {| BrowserTask.bundleUrl := BrowserTask.bundleUrl task;
                 BrowserTask.manifestUrl := BrowserTask.manifestUrl task;
                 BrowserTask.manifest := BrowserTask.manifest task;
                 BrowserTask.isLoading := false;
                 BrowserTask.loadingError := BrowserTask.loadingError task;
                 BrowserTask.initialProps := BrowserTask.initialProps task |}
       ∧ (∀ other, other ≠ url → tasks state' !! other = tasks state !! other)
       ∧ set_tasks (tasks state) state' = state)
  ∧ logUncaughtError state' url = state'.
Proof.
  unfold logUncaughtError.
  destruct (tasks state !! url) as [task|] eqn:Hlook; simpl.
  - split_and!.
    + discriminate.
    + intros ? [= <-]. split_and!.
      * by rewrite lookup_insert_eq.
      * intros other Hne. by rewrite lookup_insert_ne.
      * by destruct state.
    + rewrite lookup_insert_eq. simpl. by rewrite insert_insert_eq.
  - split_and!; [done | discriminate |]. by rewrite Hlook.
Qed.

(** An uncaught error in the loading task of [https://a], with the kernel
    flag set by [setKernelLoadingState], and one for the untracked
    [https://z]. *)
Lemma logUncaughtError_spec_witness :
  let state :=
    run initialState
      [NavigateToUrlBegin (plainMeta "https://a");
       SetLoadingState "https://a" true;
       SetKernelLoadingState true] in
  logUncaughtError state "https://z" = state
  ∧ tasks (logUncaughtError state "https://a") !! "https://a"
    = Some (BrowserTask.mk None None JNull false None JNull)
  ∧ isKernelLoading (logUncaughtError state "https://a") = true.
Proof.
  split_and!.
  - apply (proj1 (logUncaughtError_spec _ "https://z")). vm_compute. reflexivity.
  - apply (proj1 (proj2 (logUncaughtError_spec
              (run initialState
                 [NavigateToUrlBegin (plainMeta "https://a");
                  SetLoadingState "https://a" true;
                  SetKernelLoadingState true]) "https://a"))
             (BrowserTask.mk None None JNull true None JNull)).
    vm_compute. reflexivity.
  - vm_compute. reflexivity.
Defined.

(** ** Which transitions touch which fields *)

(** X4: the shell flag and the shell manifest url are changed by
    [setShellPropertiesAsync] only, which stores its payload, and the initial
    shell url by [setInitialShellUrl] only; every other transition keeps
    them. *)
Theorem shell_fields_frame (state : BrowserState) (action : Action) :
  let state' := reducer state action in
  isShell state'
  = match action with
    | SetShellProperties isShell' _ => isShell'
    | _ => isShell state
    end
  ∧ shellManifestUrl state'
    = match action with
      | SetShellProperties _ shellManifestUrl' => shellManifestUrl'
      | _ => shellManifestUrl state
      end
  ∧ shellInitialUrl state'
    = match action with
      | SetInitialShellUrl url => url
      | _ => shellInitialUrl state
      end.
Proof.
  simpl. split; [apply reducer_isShell|].
  destruct action as [meta| | | [u|] | | | url b | | | | | payload | url | url];
    simpl; try done.
  - rewrite navigateToUrlAsync_begin_unfold.
    by destruct (validateBrowserState_fields (navigateToUrlAsync_merged state meta))
      as (_ & -> & -> & _).
  - unfold foregroundUrlAsync. by case_bool_decide.
  - unfold foregroundHomeAsync. by destruct (isShell state).
  - unfold setLoadingState. by destruct (tasks state !! url).
  - rewrite showLoadingError_unfold.
    by destruct (validateBrowserState_fields (showLoadingError_merged state payload))
      as (_ & -> & -> & _).
  - unfold clearTaskWithError. by destruct (tasks state !! url).
  - unfold logUncaughtError. by destruct (tasks state !! url).
Qed.

(** X5: only the begin phase of [navigateToUrlAsync] and [showLoadingError]
    can add a task url, and only the one of their payload; after any other
    transition every task url was a task url before. *)
Theorem reducer_tasks_growth (state : BrowserState) (action : Action) :
  dom (tasks (reducer state action))
  ⊆ match action with
    | NavigateToUrlBegin meta => {[ NavMeta.url meta ]} ∪ dom (tasks state)
    | ShowLoadingError payload =>
        {[ ErrorPayload.originalUrl payload ]} ∪ dom (tasks state)
    | _ => dom (tasks state)
    end.
Proof.
  destruct action as [meta| | | [u|] | | | url b | | | | | payload | url | url];
    simpl; try done.
  - intros k [task Hlook]%elem_of_dom.
    apply navigateToUrlAsync_begin_lookup_Some in Hlook as [[-> _] | [_ Hold]].
    + set_solver.
    + apply elem_of_union_r, elem_of_dom. eauto.
  - unfold foregroundUrlAsync. by case_bool_decide.
  - unfold foregroundHomeAsync. by destruct (isShell state).
  - unfold setLoadingState.
    destruct (tasks state !! url) as [task|] eqn:Hlook; [|done]. simpl.
    rewrite dom_insert_lookup_L; [done | by rewrite Hlook].
  - intros k [task Hlook]%elem_of_dom.
    apply showLoadingError_lookup_Some in Hlook as [[-> _] | [_ Hold]].
    + set_solver.
    + apply elem_of_union_r, elem_of_dom. eauto.
  - unfold clearTaskWithError.
    destruct (tasks state !! url); [|done]. simpl.
    rewrite dom_delete_L. by intros k [? _]%elem_of_difference.
  - unfold logUncaughtError.
    destruct (tasks state !! url) as [task|] eqn:Hlook; [|done]. simpl.
    rewrite dom_insert_lookup_L; [done | by rewrite Hlook].
Qed.

(** ** Properties that every task keeps *)

Section TaskInvariant.
Variable P : string → BrowserTask.t → Prop.
Variable allowed : bool → Prop.

Hypothesis P_fresh :
  ∀ meta, P (NavMeta.url meta) (createImmutableTask meta).2.
Hypothesis P_error :
  ∀ state payload, P (ErrorPayload.originalUrl payload) (errorTask state payload).
Hypothesis P_update :
  ∀ u task isLoading, allowed isLoading → P u task →
    P u (BrowserTask.set_isLoading isLoading
           (BrowserTask.set_loadingError
              (if isLoading then None else BrowserTask.loadingError task)
              task)).
Hypothesis P_stop :
  ∀ u task, P u task → P u (BrowserTask.set_isLoading false task).

Lemma reducer_tasksAll (state : BrowserState) (action : Action) :
  loadingFlagIn allowed action → tasksAll P state →
  tasksAll P (reducer state action).
Proof using P_fresh P_error P_update P_stop.
  intros Hallowed Hall.
  destruct action as [meta| | | [u|] | | | url b | | | | | payload | url | url];
    simpl in *; try exact Hall.
  - intros k task Hlook.
    apply navigateToUrlAsync_begin_lookup_Some in Hlook as [[-> ->] | [_ Hold]].
    + apply P_fresh.
    + by apply Hall.
  - unfold foregroundUrlAsync. by case_bool_decide.
  - unfold foregroundHomeAsync. by destruct (isShell state).
  - unfold setLoadingState.
    destruct (tasks state !! url) as [old|] eqn:Hold; [|exact Hall].
    intros k task Hlook. simpl in Hlook.
    destruct (decide (url = k)) as [<-|Hne].
    + rewrite lookup_insert_eq in Hlook. injection Hlook as <-.
      apply P_update; [done|]. by apply Hall.
    + rewrite lookup_insert_ne in Hlook by done. by apply Hall.
  - intros k task Hlook.
    apply showLoadingError_lookup_Some in Hlook as [[-> ->] | [_ Hold]].
    + apply P_error.
    + by apply Hall.
  - unfold clearTaskWithError.
    destruct (tasks state !! url); [|exact Hall].
    intros k task Hlook. simpl in Hlook.
    apply lookup_delete_Some in Hlook as [_ Hlook]. by apply Hall.
  - unfold logUncaughtError.
    destruct (tasks state !! url) as [old|] eqn:Hold; [|exact Hall].
    intros k task Hlook. simpl in Hlook.
    destruct (decide (url = k)) as [<-|Hne].
    + rewrite lookup_insert_eq in Hlook. injection Hlook as <-.
      apply P_stop. by apply Hall.
    + rewrite lookup_insert_ne in Hlook by done. by apply Hall.
Qed.

Lemma reachableWith_tasksAll (state : BrowserState) :
  reachableWith (loadingFlagIn allowed) state → tasksAll P state.
Proof using P_fresh P_error P_update P_stop.
  intros Hreach. induction Hreach as [|state action _ IH Hallowed].
  - intros k task Hlook. simpl in Hlook. by rewrite lookup_empty in Hlook.
  - by apply reducer_tasksAll.
Qed.
End TaskInvariant.

Lemma reachable_any_flag (state : BrowserState) :
  reachable state → reachableWith (loadingFlagIn (λ _, True)) state.
Proof.
  intros Hreach. induction Hreach as [|state action _ IH].
  - constructor.
  - constructor; [exact IH|]. by destruct action.
Qed.

(** X6: in every reachable state no task is both loading and in error: a
    task whose [isLoading] is true has a null [loadingError]. *)
Theorem loading_task_has_no_error (state : BrowserState) :
  reachable state → tasksAll loadingHasNoError state.
Proof.
  intros Hreach.
  apply (reachableWith_tasksAll loadingHasNoError (λ _, True));
    [..|by apply reachable_any_flag]; unfold loadingHasNoError.
  - intros meta. done.
  - intros s payload Hload. by rewrite errorTask_not_loading in Hload.
  - intros u task [] _ Hold; simpl; [done | discriminate].
  - intros u task _. discriminate.
Qed.

(** An error shown for a loading task, then a retry. *)
Lemma loading_task_has_no_error_witness :
  tasksAll loadingHasNoError
    (run initialState
       [NavigateToUrlBegin (plainMeta "https://a");
        SetLoadingState "https://a" true;
        ShowLoadingError (ErrorPayload.mk "https://a" (Some 500%Z) None JNull);
        SetLoadingState "https://a" true]).
Proof.
  apply loading_task_has_no_error. apply reachable_run, reachable_init.
Defined.

(** X7: in every reachable state the error of a task was reported for that
    task: the [originalUrl] of the [loadingError] stored at a url is that
    url. *)
Theorem task_error_names_its_url (state : BrowserState) :
  reachable state → tasksAll errorNamesUrl state.
Proof.
  intros Hreach.
  apply (reachableWith_tasksAll errorNamesUrl (λ _, True));
    [..|by apply reachable_any_flag]; unfold errorNamesUrl.
  - intros meta e. discriminate.
  - intros s payload e. unfold errorTask.
    destruct (tasks s !! ErrorPayload.originalUrl payload); simpl;
      by intros [= <-].
  - intros u task [] _ Hold e; simpl; [discriminate | apply Hold].
  - intros u task Hold e. simpl. apply Hold.
Qed.

(** An error for [https://a] while [https://b] is in the foreground. *)
Lemma task_error_names_its_url_witness :
  tasksAll errorNamesUrl
    (run initialState
       [SetShellProperties true (Some "https://b");
        NavigateToUrlBegin (plainMeta "https://b");
        ShowLoadingError (ErrorPayload.mk "https://a" (Some 404%Z) None JNull);
        SetLoadingState "https://a" false]).
Proof.
  apply task_error_names_its_url. apply reachable_run, reachable_init.
Defined.

(** X8: a task starts loading through [setLoadingState] with a true flag
    only: as long as no such update is run, no task is loading, so the scan
    of [setLoadingState] and [showLoadingError] finds nothing. *)
Theorem loading_starts_with_setLoadingState (state : BrowserState) :
  reachableWith (loadingFlagIn (λ isLoading, isLoading = false)) state →
  tasksAll notLoading state ∧ isAnythingLoading (tasks state) = false.
Proof.
  intros Hreach.
  assert (Hall : tasksAll notLoading state).
  { apply (reachableWith_tasksAll notLoading (λ isLoading, isLoading = false));
      [..|done]; unfold notLoading.
    - done.
    - intros s payload. apply errorTask_not_loading.
    - by intros u task ? -> _.
    - done. }
  split; [exact Hall|].
  apply isAnythingLoading_false.
Qed.

(** Navigations, an error and an uncaught error, without a loading start. *)
Lemma loading_starts_with_setLoadingState_witness :
  isAnythingLoading
    (tasks
       (run initialState
          [NavigateToUrlBegin (plainMeta "https://a");
           ShowLoadingError (ErrorPayload.mk "https://b" None None JNull);
           SetLoadingState "https://b" false;
           LogUncaughtError "https://b"])) = false.
Proof.
  apply loading_starts_with_setLoadingState.
  repeat (apply reachableWith_step; [|first [exact I | reflexivity]]).
  apply reachableWith_init.
Defined.

(** ** How many tasks there are *)

Lemma showLoadingError_tasks_nonshell
    (state : BrowserState) (payload : ErrorPayload.t) :
  isShell state = false → ErrorPayload.originalUrl payload ≠ "" →
  tasks (showLoadingError state payload)
  = {[ ErrorPayload.originalUrl payload := errorTask state payload ]}.
Proof.
  intros Hshell Hne. apply map_eq. intros k.
  rewrite showLoadingError_unfold.
  rewrite (validateBrowserState_lookup _ (ErrorPayload.originalUrl payload)) by done.
  unfold keepTask. simpl. rewrite Hshell. simpl. rewrite orb_false_r.
  case_bool_decide as Hk.
  - subst k. by rewrite lookup_insert_eq, lookup_singleton_eq.
  - by rewrite lookup_singleton_ne.
Qed.

Lemma normalized_size (state : BrowserState) (fg : string) :
  foregroundTaskUrl state = Some fg → tasksNormalized state →
  (size (tasks state) ≤ 2)%nat.
Proof.
  intros Hfg Hnorm.
  rewrite <- size_dom.
  destruct (shellManifestUrl state) as [m|] eqn:Hm.
  - transitivity (size ({[ fg ]} ∪ {[ m ]} : gset string)).
    + apply subseteq_size. intros k Hk%elem_of_dom.
      destruct (Hnorm k Hk) as [Heq | [_ Heq]].
      * rewrite Hfg in Heq. injection Heq as ->. by apply elem_of_union_l, elem_of_singleton.
      * rewrite Hm in Heq. injection Heq as ->. by apply elem_of_union_r, elem_of_singleton.
    + rewrite size_union_alt, size_singleton.
      assert (size ({[ m ]} ∖ {[ fg ]} : gset string) ≤ 1)%nat; [|lia].
      rewrite <- (size_singleton (C := gset string) m).
      apply subseteq_size. by intros k [? _]%elem_of_difference.
  - transitivity (size ({[ fg ]} : gset string)).
    + apply subseteq_size. intros k Hk%elem_of_dom.
      destruct (Hnorm k Hk) as [Heq | [_ Heq]].
      * rewrite Hfg in Heq. injection Heq as ->. by apply elem_of_singleton.
      * rewrite Hm in Heq. discriminate.
    + rewrite size_singleton. lia.
Qed.

(** X9: after the begin phase of [navigateToUrlAsync] or [showLoadingError]
    for a non-empty url there are one or two tasks, and outside shell mode
    exactly one, the task of that url: every other task is dropped. *)
Theorem normalized_transitions_task_count :
  (∀ state meta, NavMeta.url meta ≠ "" →
     let state' := navigateToUrlAsync_begin state meta in
     (1 ≤ size (tasks state') ≤ 2)%nat
     ∧ (isShell state = false →
        tasks state' = {[ NavMeta.url meta := (createImmutableTask meta).2 ]}))
  ∧ (∀ state payload, ErrorPayload.originalUrl payload ≠ "" →
       let state' := showLoadingError state payload in
       (1 ≤ size (tasks state') ≤ 2)%nat
       ∧ (isShell state = false →
          tasks state'
          = {[ ErrorPayload.originalUrl payload := errorTask state payload ]})).
Proof.
  split.
  - intros state meta Hne state'. unfold state'. split_and!.
    + pose proof (navigateToUrlAsync_begin_lookup state meta) as Hlook.
      destruct (size (tasks (navigateToUrlAsync_begin state meta))) eqn:Hsize;
        [|lia].
      apply map_size_empty_inv in Hsize. rewrite Hsize in Hlook.
      by rewrite lookup_empty in Hlook.
    + apply (normalized_size _ (NavMeta.url meta)).
      * apply navigateToUrlAsync_begin_foreground.
      * rewrite navigateToUrlAsync_begin_unfold.
        by apply (validateBrowserState_normalized _ (NavMeta.url meta)).
    + intros Hshell. by apply navigateToUrlAsync_begin_tasks_nonshell.
  - intros state payload Hne state'. unfold state'. split_and!.
    + pose proof (showLoadingError_lookup state payload) as Hlook.
      destruct (size (tasks (showLoadingError state payload))) eqn:Hsize; [|lia].
      apply map_size_empty_inv in Hsize. rewrite Hsize in Hlook.
      by rewrite lookup_empty in Hlook.
    + apply (normalized_size _ (ErrorPayload.originalUrl payload)).
      * apply showLoadingError_foreground.
      * rewrite showLoadingError_unfold.
        by apply (validateBrowserState_normalized _
                    (ErrorPayload.originalUrl payload)).
    + intros Hshell. by apply showLoadingError_tasks_nonshell.
Qed.

(** A shell that keeps its manifest task beside the foreground task, and
    the same navigation outside shell mode. *)
Lemma normalized_transitions_task_count_witness :
  size (tasks (run initialState
                 [SetShellProperties true (Some "https://m");
                  NavigateToUrlBegin (plainMeta "https://m");
                  NavigateToUrlBegin (plainMeta "https://a")])) = 2
  ∧ tasks (navigateToUrlAsync_begin
             (navigateToUrlAsync_begin initialState (plainMeta "https://m"))
             (plainMeta "https://a"))
    = {[ "https://a" := BrowserTask.mk None None JNull false None JNull ]}.
Proof.
  split.
  - vm_compute. reflexivity.
  - apply (proj1 normalized_transitions_task_count
             (navigateToUrlAsync_begin initialState (plainMeta "https://m"))
             (plainMeta "https://a")).
    + discriminate.
    + vm_compute. reflexivity.
Defined.

Lemma plainBrowsing_step (state : BrowserState) (action : Action) :
  plainBrowsing action →
  isShell state = false ∧ (size (tasks state) ≤ 1)%nat →
  isShell (reducer state action) = false
  ∧ (size (tasks (reducer state action)) ≤ 1)%nat.
Proof.
  intros Hplain [Hshell Hsize]. split.
  - rewrite reducer_isShell. by destruct action.
  - destruct action as [meta| | | [u|] | | | url b | | | | | payload | url | url];
      simpl in *; try done.
    + rewrite navigateToUrlAsync_begin_tasks_nonshell by done.
      by rewrite map_size_singleton.
    + unfold foregroundUrlAsync. by case_bool_decide.
    + unfold foregroundHomeAsync. by destruct (isShell state).
    + unfold setLoadingState.
      destruct (tasks state !! url) as [task|] eqn:Hlook; [|done]. simpl.
      by rewrite map_size_insert_Some by (by rewrite Hlook).
    + rewrite showLoadingError_tasks_nonshell by done.
      by rewrite map_size_singleton.
    + unfold clearTaskWithError.
      destruct (tasks state !! url) as [task|] eqn:Hlook; [|done]. simpl.
      pose proof (map_size_delete_Some url (tasks state) (mk_is_Some _ _ Hlook)).
      lia.
    + unfold logUncaughtError.
      destruct (tasks state !! url) as [task|] eqn:Hlook; [|done]. simpl.
      by rewrite map_size_insert_Some by (by rewrite Hlook).
Qed.

(** X10: a browser that never enters shell mode and whose navigation and
    error urls are never empty has at most one task at any time. *)
Theorem plain_browser_has_one_task (state : BrowserState) :
  reachableWith plainBrowsing state →
  isShell state = false ∧ (size (tasks state) ≤ 1)%nat.
Proof.
  intros Hreach. induction Hreach as [|state action _ IH Hplain].
  - split; [done|]. simpl. rewrite map_size_empty. lia.
  - by apply plainBrowsing_step.
Qed.

(** Two navigations and an error for a third url. *)
Lemma plain_browser_has_one_task_witness :
  (size (tasks (run initialState
                  [NavigateToUrlBegin (plainMeta "https://a");
                   NavigateToUrlBegin (plainMeta "https://b");
                   ShowLoadingError (ErrorPayload.mk "https://c" None None JNull)]))
   ≤ 1)%nat.
Proof.
  apply plain_browser_has_one_task.
  repeat (apply reachableWith_step; [|first [exact I | discriminate]]).
  apply reachableWith_init.
Defined.

(** ** The normalization pass, again *)

Lemma validateBrowserState_tasks_lookup (state : BrowserState) (k : string) :
  tasks (validateBrowserState state) !! k
  = match foregroundTaskUrl state with
    | Some fg =>
        if truthy fg then
          if keepTask state fg k then tasks state !! k else None
        else tasks state !! k
    | None => tasks state !! k
    end.
Proof.
  destruct (foregroundTaskUrl state) as [fg|] eqn:Hfg.
  - destruct (truthy fg) eqn:Htruthy.
    + apply validateBrowserState_lookup; [done|].
      unfold truthy in Htruthy. by apply bool_decide_eq_true in Htruthy.
    + unfold validateBrowserState. by rewrite Hfg, Htruthy.
  - unfold validateBrowserState. by rewrite Hfg.
Qed.

Lemma validateBrowserState_idempotent (state : BrowserState) :
  validateBrowserState (validateBrowserState state) = validateBrowserState state.
Proof.
  destruct (validateBrowserState_fields (validateBrowserState state))
    as (H1 & H2 & H3 & H4 & H5 & H6 & H7).
  apply BrowserState_eq; try done.
  apply map_eq. intros k.
  rewrite (validateBrowserState_tasks_lookup (validateBrowserState state)).
  destruct (validateBrowserState_fields state) as (Hshell & Hman & _ & _ & _ & Hfg & _).
  rewrite Hfg.
  destruct (foregroundTaskUrl state) as [fg|] eqn:Hfg'; [|done].
  destruct (truthy fg) eqn:Htruthy; [|done].
  assert (Hkeep : keepTask (validateBrowserState state) fg k = keepTask state fg k).
  { unfold keepTask. by rewrite Hshell, Hman. }
  rewrite Hkeep.
  destruct (keepTask state fg k) eqn:Hk; [done|].
  rewrite validateBrowserState_tasks_lookup, Hfg', Htruthy. by rewrite Hk.
Qed.

(** X11: [validateBrowserState] only removes tasks: what it keeps is a task
    of its argument, unchanged, and the foreground task, when there is one,
    is kept; it does nothing when the foreground url is null or empty; and
    running it twice is the same as running it once. *)
Theorem validateBrowserState_shrinks (state : BrowserState) :
  tasks (validateBrowserState state) ⊆ tasks state
  ∧ (∀ fg, foregroundTaskUrl state = Some fg →
       tasks (validateBrowserState state) !! fg = tasks state !! fg)
  ∧ (foregroundTaskUrl state = None ∨ foregroundTaskUrl state = Some "" →
       validateBrowserState state = state)
  ∧ validateBrowserState (validateBrowserState state) = validateBrowserState state.
Proof.
  split_and!.
  - apply map_subseteq_spec. intros k task. apply validateBrowserState_subseteq.
  - intros fg Hfg. rewrite validateBrowserState_tasks_lookup, Hfg.
    destruct (truthy fg); [|done].
    unfold keepTask. by rewrite bool_decide_eq_true_2.
  - apply validateBrowserState_falsy.
  - apply validateBrowserState_idempotent.
Qed.

(** The pass on a snapshot with two tasks and the foreground url [https://m],
    outside shell mode, and on a snapshot without a foreground url. *)
Lemma validateBrowserState_shrinks_witness :
  let state :=
    set_isShell false
      (run initialState
         [SetShellProperties true (Some "https://m");
          NavigateToUrlBegin (plainMeta "https://m");
          NavigateToUrlBegin (plainMeta "https://a");
          ForegroundUrl (Some "https://m")]) in
  size (tasks state) = 2
  ∧ dom (tasks (validateBrowserState state)) = {[ "https://m" ]}
  ∧ tasks (validateBrowserState state) !! "https://m" = tasks state !! "https://m"
  ∧ validateBrowserState (set_foregroundTaskUrl None state)
    = set_foregroundTaskUrl None state.
Proof.
  split_and!.
  - vm_compute. reflexivity.
  - vm_compute. reflexivity.
  - apply (proj1 (proj2 (validateBrowserState_shrinks _)) "https://m").
    vm_compute. reflexivity.
  - apply (proj1 (proj2 (proj2 (validateBrowserState_shrinks _)))).
    left. reflexivity.
Defined.

(** ** Repeating a navigation *)

Lemma filter_filter_same {A : Type} (p : A → bool) (l : list A) :
  List.filter p (List.filter p l) = List.filter p l.
Proof.
  induction l as [|x l IH]; simpl; [done|].
  destruct (p x) eqn:Hp; simpl; [|done]. by rewrite Hp, IH.
Qed.

Lemma otherUrl_self (item : HistoryItem.t) : otherUrl item item = false.
Proof. unfold otherUrl. by apply bool_decide_eq_false_2; intros ?. Qed.

(** X12: the begin phase is idempotent: a second begin with the same meta
    returns the state the first one produced; the task is stored once and the
    history item appears once, at the front. *)
Theorem navigateToUrlAsync_begin_idempotent
    (state : BrowserState) (meta : NavMeta.t) :
  navigateToUrlAsync_begin (navigateToUrlAsync_begin state meta) meta
  = navigateToUrlAsync_begin state meta.
Proof.
  set (s1 := navigateToUrlAsync_begin state meta).
  pose proof (navigateToUrlAsync_begin_frame state meta)
    as (Hhome1 & Hk1 & Hman1 & Hinit1).
  pose proof (navigateToUrlAsync_begin_foreground state meta) as (Hfg1 & Hsh1).
  pose proof (navigateToUrlAsync_begin_frame s1 meta)
    as (Hhome2 & Hk2 & Hman2 & Hinit2).
  pose proof (navigateToUrlAsync_begin_foreground s1 meta) as (Hfg2 & Hsh2).
  cbv zeta in *. fold s1 in Hfg1, Hhome1, Hk1, Hsh1, Hman1, Hinit1.
  apply BrowserState_eq; try congruence.
  - apply map_eq. intros k.
    destruct (decide (k = NavMeta.url meta)) as [->|Hne].
    + unfold s1. by rewrite !navigateToUrlAsync_begin_lookup.
    + rewrite navigateToUrlAsync_begin_unfold.
      rewrite validateBrowserState_tasks_lookup. simpl.
      rewrite lookup_insert_ne by done.
      destruct (truthy (NavMeta.url meta)) eqn:Htruthy; [|done].
      destruct (keepTask _ _ k) eqn:Hkeep; [done|].
      unfold s1. rewrite navigateToUrlAsync_begin_unfold.
      rewrite validateBrowserState_tasks_lookup. simpl. rewrite Htruthy.
      unfold keepTask in *. simpl in *. fold s1 in Hkeep.
      rewrite Hsh1, Hman1 in Hkeep. by rewrite Hkeep.
  - rewrite navigateToUrlAsync_begin_history. unfold s1.
    rewrite navigateToUrlAsync_begin_history. simpl.
    by rewrite otherUrl_self, filter_filter_same.
Qed.

(** ** The length of the history *)

Lemma filter_otherUrl_absent (item : HistoryItem.t) (h : list HistoryItem.t) :
  HistoryItem.url item ∉ map HistoryItem.url h →
  List.filter (otherUrl item) h = h.
Proof.
  induction h as [|x h IH]; simpl; [done|].
  intros Hnotin. apply not_elem_of_cons in Hnotin as [Hne Hnotin].
  unfold otherUrl at 1. rewrite bool_decide_eq_true_2 by done.
  by rewrite IH.
Qed.

Lemma filter_otherUrl_present (item : HistoryItem.t) (h : list HistoryItem.t) :
  uniqueUrls h → HistoryItem.url item ∈ map HistoryItem.url h →
  S (length (List.filter (otherUrl item) h)) = length h.
Proof.
  unfold uniqueUrls. induction h as [|x h IH]; simpl.
  - intros _ Hin. by apply elem_of_nil in Hin.
  - intros [Hfresh Huniq]%NoDup_cons Hin.
    unfold otherUrl at 1. case_bool_decide as Hx; simpl.
    + apply elem_of_cons in Hin as [Heq|Hin]; [done|].
      by rewrite IH.
    + rewrite filter_otherUrl_absent; [done|].
      by rewrite <- Hx.
Qed.

(** X13: a begin phase makes the history one item longer when no item has
    the new item's url; when the history has no two items of the same url and
    one of them has the new item's url, the length stays the same; and it
    never grows by more than one item. *)
Theorem navigateToUrlAsync_begin_history_length
    (state : BrowserState) (meta : NavMeta.t) :
  let url := RawItem.url (NavMeta.historyItem meta) in
  let state' := navigateToUrlAsync_begin state meta in
  (length (history state') ≤ S (length (history state)))%nat
  ∧ (url ∉ map HistoryItem.url (history state) →
       length (history state') = S (length (history state)))
  ∧ (uniqueUrls (history state) → url ∈ map HistoryItem.url (history state) →
       length (history state') = length (history state)).
Proof.
  intros url state'. unfold state', url.
  rewrite navigateToUrlAsync_begin_history. simpl. split_and!.
  - apply le_n_S, filter_length_le.
  - intros Hnotin. by rewrite filter_otherUrl_absent.
  - intros Huniq Hin. by apply filter_otherUrl_present.
Qed.

(** Going back to [https://a] in the history [b, a], and on to [https://c]. *)
Lemma navigateToUrlAsync_begin_history_length_witness :
  let state :=
    run initialState
      [NavigateToUrlBegin (plainMeta "https://a");
       NavigateToUrlBegin (plainMeta "https://b")] in
  length (history (navigateToUrlAsync_begin state (plainMeta "https://a"))) = 2
  ∧ length (history (navigateToUrlAsync_begin state (plainMeta "https://c"))) = 3.
Proof.
  split.
  - apply (proj2 (proj2 (navigateToUrlAsync_begin_history_length
                           (run initialState
                              [NavigateToUrlBegin (plainMeta "https://a");
                               NavigateToUrlBegin (plainMeta "https://b")])
                           (plainMeta "https://a")))).
    + unfold uniqueUrls. vm_compute.
      apply NoDup_cons. split; [|apply NoDup_singleton].
      intros Hin%list_elem_of_singleton. discriminate.
    + vm_compute. apply list_elem_of_further, list_elem_of_here.
  - apply (proj1 (proj2 (navigateToUrlAsync_begin_history_length
                           (run initialState
                              [NavigateToUrlBegin (plainMeta "https://a");
                               NavigateToUrlBegin (plainMeta "https://b")])
                           (plainMeta "https://c")))).
    vm_compute. intros Hin.
    apply elem_of_cons in Hin as [Heq|Hin]; [discriminate|].
    apply list_elem_of_singleton in Hin. discriminate.
Defined.

(** ** Errors, retries and evictions *)

(** X14: after [showLoadingError] for a url, a loading update with a true
    flag for that url clears the error and makes the task loading, and the
    url stays in the foreground with home hidden; a later update with a false
    flag stops the loading and does not bring the error back. *)
Theorem retry_clears_error (state : BrowserState) (payload : ErrorPayload.t) :
  let url := ErrorPayload.originalUrl payload in
  let shown := showLoadingError state payload in
  let retried := setLoadingState shown url true in
  let stopped := setLoadingState retried url false in
  (∃ task, tasks shown !! url = Some task
           ∧ BrowserTask.loadingError task = Some (new_LoadingError payload)
           ∧ BrowserTask.isLoading task = false)
  ∧ (∃ task, tasks retried !! url = Some task
             ∧ BrowserTask.loadingError task = None
             ∧ BrowserTask.isLoading task = true)
  ∧ foregroundTaskUrl retried = Some url
  ∧ isHomeVisible retried = false
  ∧ (∃ task, tasks stopped !! url = Some task
             ∧ BrowserTask.loadingError task = None
             ∧ BrowserTask.isLoading task = false).
Proof.
  intros url shown retried stopped.
  pose proof (showLoadingError_lookup state payload) as Hshown.
  fold url shown in Hshown.
  destruct (showLoadingError_foreground state payload) as (Hfg & Hhome & _).
  fold url shown in Hfg, Hhome.
  assert (Hretried : tasks retried !! url
            = Some (BrowserTask.set_isLoading true
                      (BrowserTask.set_loadingError None (errorTask state payload)))).
  { unfold retried, setLoadingState. rewrite Hshown. simpl.
    by rewrite lookup_insert_eq. }
  split_and!.
  - exists (errorTask state payload). split_and!; [done | |].
    + unfold errorTask. by destruct (tasks state !! _).
    + apply errorTask_not_loading.
  - eexists. split; [exact Hretried|]. done.
  - unfold retried, setLoadingState. by rewrite Hshown.
  - unfold retried, setLoadingState. by rewrite Hshown.
  - unfold stopped, setLoadingState. rewrite Hretried. simpl.
    eexists. split; [apply lookup_insert_eq | done].
Qed.

(** X15: [clearTaskWithError] for the url of an error that was just shown
    removes the task of that url, shows home and clears the foreground url;
    outside shell mode, for a non-empty url, no task is left at all. *)
Theorem clear_after_error (state : BrowserState) (payload : ErrorPayload.t) :
  let url := ErrorPayload.originalUrl payload in
  let cleared := clearTaskWithError (showLoadingError state payload) url in
  tasks cleared !! url = None
  ∧ isHomeVisible cleared = true
  ∧ foregroundTaskUrl cleared = None
  ∧ tasks cleared ⊆ tasks (showLoadingError state payload)
  ∧ (isShell state = false → url ≠ "" → tasks cleared = ∅).
Proof.
  intros url cleared. subst url cleared. unfold clearTaskWithError.
  rewrite showLoadingError_lookup. simpl. split_and!; try done.
  - apply lookup_delete_eq.
  - apply delete_subseteq.
  - intros Hshell Hne.
    rewrite showLoadingError_tasks_nonshell by done.
    apply delete_singleton_eq.
Qed.

(** An error for [https://a] while [https://b] is loading, then its
    eviction: nothing is left. *)
Lemma clear_after_error_witness :
  let state :=
    run initialState
      [NavigateToUrlBegin (plainMeta "https://b");
       SetLoadingState "https://b" true] in
  tasks (clearTaskWithError
           (showLoadingError state
              (ErrorPayload.mk "https://a" (Some 404%Z) None JNull))
           "https://a") = ∅.
Proof.
  apply (clear_after_error
           (run initialState
              [NavigateToUrlBegin (plainMeta "https://b");
               SetLoadingState "https://b" true])
           (ErrorPayload.mk "https://a" (Some 404%Z) None JNull)).
  - vm_compute. reflexivity.
  - discriminate.
Defined.

(** X16: [setLoadingState] is idempotent: the same update a second time
    returns the state the first one produced. *)
Theorem setLoadingState_idempotent
    (state : BrowserState) (url : string) (isLoading : bool) :
  setLoadingState (setLoadingState state url isLoading) url isLoading
  = setLoadingState state url isLoading.
Proof.
  unfold setLoadingState at 2 3.
  destruct (tasks state !! url) as [task|] eqn:Hlook.
  - unfold setLoadingState. simpl. rewrite lookup_insert_eq. simpl.
    rewrite insert_insert_eq.
    by destruct isLoading.
  - unfold setLoadingState. by rewrite Hlook.
Qed.

(** ** The history and the rest of the state *)

(** X17: the history after a sequence of actions depends on the history
    before it and on the actions only, not on the tasks, the foreground url,
    the flags or the shell fields. *)
Theorem history_independent_of_tasks
    (state1 state2 : BrowserState) (actions : list Action) :
  history state1 = history state2 →
  history (run state1 actions) = history (run state2 actions).
Proof.
  revert state1 state2.
  induction actions as [|action actions IH]; intros state1 state2 Hh; [done|].
  simpl. apply IH. rewrite !reducer_history. by rewrite Hh.
Qed.

(** The same actions from the initial state and from a shell snapshot with a
    loading task. *)
Lemma history_independent_of_tasks_witness :
  history
    (run initialState
       [NavigateToUrlBegin (plainMeta "https://a");
        LogUncaughtError "https://a";
        NavigateToUrlBegin (plainMeta "https://b")])
  = history
      (run (run initialState
              [SetShellProperties true (Some "https://m");
               ShowLoadingError (ErrorPayload.mk "https://m" None None JNull);
               SetLoadingState "https://m" true])
         [NavigateToUrlBegin (plainMeta "https://a");
          LogUncaughtError "https://a";
          NavigateToUrlBegin (plainMeta "https://b")]).
Proof.
  apply history_independent_of_tasks. vm_compute. reflexivity.
Defined.

(** ** Going home and back *)

(** X18: going home and then foregrounding the former foreground url again
    gives back the state one started from, provided home was hidden and the
    foreground url was null or the url of a task; in shell mode the first
    step already changes nothing. *)
Theorem home_and_back (state : BrowserState) :
  isHomeVisible state = false → foregroundTracked state →
  foregroundUrlAsync (foregroundHomeAsync state) (foregroundTaskUrl state) = state.
Proof.
  intros Hhome Htracked.
  assert (Htasks : tasks (foregroundHomeAsync state) = tasks state).
  { unfold foregroundHomeAsync. by destruct (isShell state). }
  unfold foregroundUrlAsync. rewrite Htasks.
  destruct (foregroundTaskUrl state) as [u|] eqn:Hfg.
  - rewrite bool_decide_eq_true_2 by (by apply Htracked).
    unfold foregroundHomeAsync.
    destruct state as [shell ? ? ? ? ? ? ?]; simpl in *; subst; by destruct shell.
  - unfold foregroundHomeAsync.
    destruct state as [shell ? ? ? ? ? ? ?]; simpl in *; subst; by destruct shell.
Qed.

(** From the task of [https://a] to home and back. *)
Lemma home_and_back_witness :
  let state := navigateToUrlAsync_begin initialState (plainMeta "https://a") in
  isHomeVisible (foregroundHomeAsync state) = true
  ∧ foregroundUrlAsync (foregroundHomeAsync state) (Some "https://a") = state.
Proof.
  split.
  - reflexivity.
  - apply (home_and_back
             (navigateToUrlAsync_begin initialState (plainMeta "https://a"))).
    + reflexivity.
    + apply (reducer_foregroundTracked initialState
               (NavigateToUrlBegin (plainMeta "https://a"))).
      intros u Hfg. discriminate.
Defined.

(** ** What the two scanning transitions do to the tasks *)

(** X19: [showLoadingError] stores at [originalUrl] the old task with
    [isLoading = false], [initialProps = null] and the payload's error when
    there was one, and otherwise a task that holds only the error; it makes
    [originalUrl] the foreground url, hides home and keeps the shell flag. *)
Theorem showLoadingError_stores_error
    (state : BrowserState) (payload : ErrorPayload.t) :
  let originalUrl := ErrorPayload.originalUrl payload in
  let state' := showLoadingError state payload in
  (∀ task, tasks state !! originalUrl = Some task →
     tasks state' !! originalUrl
     = Some {| BrowserTask.bundleUrl := BrowserTask.bundleUrl task;
               BrowserTask.manifestUrl := BrowserTask.manifestUrl task;
               BrowserTask.manifest := BrowserTask.manifest task;
               BrowserTask.isLoading := false;
               BrowserTask.loadingError := Some (new_LoadingError payload);
               BrowserTask.initialProps := JNull |})
  ∧ (tasks state !! originalUrl = None →
       tasks state' !! originalUrl
       = Some {| BrowserTask.bundleUrl := None;
                 BrowserTask.manifestUrl := None;
                 BrowserTask.manifest := JNull;
                 BrowserTask.isLoading := false;
                 BrowserTask.loadingError := Some (new_LoadingError payload);
                 BrowserTask.initialProps := JNull |})
  ∧ foregroundTaskUrl state' = Some originalUrl
  ∧ isHomeVisible state' = false
  ∧ isShell state' = isShell state.
Proof.
  intros originalUrl state'. unfold state', originalUrl.
  destruct (showLoadingError_foreground state payload) as (Hfg & Hhome & Hshell).
  split_and!; try done.
  - intros task Hlook. rewrite showLoadingError_lookup.
    unfold errorTask. by rewrite Hlook.
  - intros Hlook. rewrite showLoadingError_lookup.
    unfold errorTask. by rewrite Hlook.
Qed.

(** [showLoadingError({originalUrl: "https://a", code: 404})] on the initial
    state. *)
Lemma showLoadingError_stores_error_witness :
  let state' :=
    showLoadingError initialState
      (ErrorPayload.mk "https://a" (Some 404%Z) None JNull) in
  tasks state' !! "https://a"
  = Some {| BrowserTask.bundleUrl := None;
            BrowserTask.manifestUrl := None;
            BrowserTask.manifest := JNull;
            BrowserTask.isLoading := false;
            BrowserTask.loadingError :=
              Some {| LoadingError.code := 404;
                      LoadingError.message := None;
                      LoadingError.originalUrl := Some "https://a";
                      LoadingError.manifest := JNull |};
            BrowserTask.initialProps := JNull |}
  ∧ foregroundTaskUrl state' = Some "https://a"
  ∧ isHomeVisible state' = false.
Proof.
  destruct (showLoadingError_stores_error initialState
              (ErrorPayload.mk "https://a" (Some 404%Z) None JNull))
    as (_ & Hfresh & Hfg & Hhome & _).
  split_and!.
  - apply Hfresh. reflexivity.
  - exact Hfg.
  - exact Hhome.
Defined.

(** X20: [setLoadingState] for a url without a task returns the state as it
    is.  For a url with a task it stores, at that url, the task with
    [isLoading] set to the payload flag and [loadingError] cleared when the
    flag is true and kept when it is false; the task's other fields and the
    other tasks are kept, and so is every field of the state but [tasks] and
    [isKernelLoading]. *)
Theorem setLoadingState_updates_task
    (state : BrowserState) (url : string) (isLoading : bool) :
  let state' := setLoadingState state url isLoading in
  (tasks state !! url = None → state' = state)
  ∧ (∀ task, tasks state !! url = Some task →
       tasks state' !! url
       = Some {| BrowserTask.bundleUrl := BrowserTask.bundleUrl task;
                 BrowserTask.manifestUrl := BrowserTask.manifestUrl task;
                 BrowserTask.manifest := BrowserTask.manifest task;
                 BrowserTask.isLoading := isLoading;
                 BrowserTask.loadingError :=
                   if isLoading then None else BrowserTask.loadingError task;
                 BrowserTask.initialProps := BrowserTask.initialProps task |}
       ∧ (∀ other, other ≠ url → tasks state' !! other = tasks state !! other)
       ∧ set_isKernelLoading (isKernelLoading state) (set_tasks (tasks state) state')
         = state).
Proof.
  unfold setLoadingState. split.
  - by intros ->.
  - intros task ->. simpl. split_and!.
    + by rewrite lookup_insert_eq.
    + intros other Hne. by rewrite lookup_insert_ne.
    + by destruct state.
Qed.

(** [setLoadingState(url="https://x", isLoading=true)] on the initial state,
    and a loading update for the tracked [https://a]. *)
Lemma setLoadingState_updates_task_witness :
  setLoadingState initialState "https://x" true = initialState
  ∧ tasks (setLoadingState
             (navigateToUrlAsync_begin initialState (plainMeta "https://a"))
             "https://a" true) !! "https://a"
    = Some (BrowserTask.mk None None JNull true None JNull).
Proof.
  split.
  - apply (proj1 (setLoadingState_updates_task initialState "https://x" true)).
    reflexivity.
  - destruct (proj2 (setLoadingState_updates_task
                       (navigateToUrlAsync_begin initialState (plainMeta "https://a"))
                       "https://a" true)
                (BrowserTask.mk None None JNull false None JNull))
      as (Htask & _).
    + vm_compute. reflexivity.
    + exact Htask.
Defined.
